(** * SimulationContext: a shallow embedding of
      omni/isaac/orbit/sim/simulation_context.py

    The adapter class is modelled as state-passing code over two stores:
    the attributes of the Python object ([Self]) and the part of the host
    engine the methods talk to ([World]).  Every call that the source
    delegates to the engine (base class, PhysX, carb, USD) is recorded as an
    [Event] in the world's trace, oldest event first, so that statements
    about "what was called, and in which order" are statements about lists.

    Python exceptions are results of their own ([Raise]) and carry the
    state at the moment of the raise, because a Python method that raises
    keeps the attribute writes it made before. *)

From Stdlib Require Import ZArith Lia List Ascii String Bool Floats Reals Lra.
From stdpp Require Import gmap strings.
Import ListNotations.

Set Warnings "-inexact-float,-register-all".

Local Open Scope string_scope.
Local Open Scope list_scope.
Local Open Scope Z_scope.

(** ** Values *)

(** [SimulationContext.RenderMode], an [enum.Enum]. *)
Inductive RenderMode :=
| HEADLESS
| NO_RENDERING
| PARTIAL_RENDERING
| FULL_RENDERING.

(** The [value] of each member, as written in the class body. *)
Definition RenderMode_value (m : RenderMode) : Z :=
  match m with
  | HEADLESS => -1
  | NO_RENDERING => 0
  | PARTIAL_RENDERING => 1
  | FULL_RENDERING => 2
  end.

Definition RenderMode_eqb (a b : RenderMode) : bool :=
  RenderMode_value a =? RenderMode_value b.

(** Python objects that can be handed to a parameter annotated
    [RenderMode]: the annotation is not enforced, so besides the members of
    the enum the argument can be [None], a number, a string, ... *)
Inductive PyVal :=
| VNone
| VBool (b : bool)
| VInt (z : Z)
| VStr (s : string)
| VMode (m : RenderMode).

(** [v == RenderMode.m].  A plain [enum.Enum] member compares by identity;
    in particular [RenderMode.NO_RENDERING == 0] is [False]. *)
Definition is_mode (v : PyVal) (m : RenderMode) : bool :=
  match v with
  | VMode m' => RenderMode_eqb m' m
  | _ => false
  end.

(** The three members [set_render_mode] has a branch for. *)
Definition supported (v : PyVal) : bool :=
  is_mode v FULL_RENDERING || is_mode v PARTIAL_RENDERING || is_mode v NO_RENDERING.

(** Python truth value, for [not carb_settings_iface.get(...)]. *)
Definition truthy (v : PyVal) : bool :=
  match v with
  | VNone => false
  | VBool b => b
  | VInt z => negb (z =? 0)
  | VStr s => negb (String.eqb s "")
  | VMode _ => true
  end.

(** ** Exceptions and results *)

Inductive Exn :=
| RuntimeError (msg : string)
| ValueError (msg : string)
| AttributeError (attr : string)
| TypeError (msg : string)
| IndexError
| ZeroDivisionError
| OverflowError.

(** [Blocked]: the call was still busy-polling when the fuel given to the
    model ran out; it has not returned. *)
Inductive Res (S A : Type) :=
| Ok (a : A) (s : S)
| Raise (e : Exn) (s : S)
| Blocked (s : S).
Arguments Ok {S A} a s.
Arguments Raise {S A} e s.
Arguments Blocked {S A} s.

Definition M (S A : Type) : Type := S -> Res S A.

Definition ret {S A} (a : A) : M S A := fun s => Ok a s.

Definition bind {S A B} (m : M S A) (k : A -> M S B) : M S B :=
  fun s =>
    match m s with
    | Ok a s' => k a s'
    | Raise e s' => Raise e s'
    | Blocked s' => Blocked s'
    end.

Definition raise {S A} (e : Exn) : M S A := fun s => Raise e s.
Definition get {S} : M S S := fun s => Ok s s.
Definition modify {S} (f : S -> S) : M S unit := fun s => Ok tt (f s).

Declare Scope py_scope.
Delimit Scope py_scope with py.
Notation "x <- m ;; k" := (bind m (fun x => k))
  (at level 100, m at next level, k at level 200, right associativity) : py_scope.
Notation "m ;; k" := (bind m (fun _ => k))
  (at level 100, k at level 200, right associativity) : py_scope.
Local Open Scope py_scope.

(** [if c: body] with no [else]. *)
Definition when {S} (c : bool) (body : M S unit) : M S unit :=
  if c then body else ret tt.

Definition state_of {S A} (r : Res S A) : S :=
  match r with Ok _ s | Raise _ s | Blocked s => s end.

Definition returns {S A} (r : Res S A) : bool :=
  match r with Ok _ _ => true | _ => false end.

(** ** The host engine *)

Inductive TimelineState := PLAYING | PAUSED | STOPPED.

Record ViewportAPI := { updates_enabled : bool }.
Record Window := { visible : bool }.

(** The two data bridges [_load_fabric_interface] can acquire. *)
Inductive FabricIface := PhysxFlatcache | PhysxFabric.

(** A nested dictionary, keys in insertion order, as [cfg.to_dict()]
    returns it. *)
Inductive Param :=
| PLeaf (v : PyVal)
| PFloat (f : float)
| PDict (d : list (string * Param)).

Abbreviation Dict := (list (string * Param)).

(** Calls delegated to the engine. *)
Inductive Event :=
| BaseInit (physics_dt rendering_dt : float) (sim_params : option Dict)
           (physics_prim_path device : string)
| ForceLoadPhysicsFromUsd
| BaseReset (soft : bool)
| BaseResetAsync (soft : bool)
| AddTimelineCallback (name : string)
| AppUpdate
| BaseStep (render : bool)
| BaseRender
| FabricUpdate (iface : FabricIface) (t dt : float)
| BaseInitStage
| BaseInitializeStageAsync
| EnableCcd (flag : bool)
| CreateGpuCollisionStackSizeAttr (n : Z)
| CreateGravityDirectionAttr (x y z : float)
| CreateGravityMagnitudeAttr (m : float)
| CreateMinIterationCountAttr (n : Z)
| CreateMaxIterationCountAttr (n : Z)
| CreateMinPositionIterationCountAttr (n : Z)
| CreateMaxPositionIterationCountAttr (n : Z)
| CreateMinVelocityIterationCountAttr (n : Z)
| CreateMaxVelocityIterationCountAttr (n : Z)
| SpawnPhysicsMaterial (path material : string)
| BindPhysicsMaterial (prim_path material_path : string).

(** What the adapter can observe of the engine, and change in it.
    [w_timeline] is the schedule of the timeline: its state at each tick of
    [w_clock]; the clock advances at every interaction with the engine, so
    the schedule is free to change the timeline between any two of them
    (the user pressing play, pause or stop).  [w_isaac_version] is what
    [omni.isaac.version.get_version()] reads from the VERSION file, and
    [w_timeline_callbacks] the names in the base class's table of timeline
    subscriptions. *)
Record World := {
  w_stage : option string;
  w_settings : gmap string PyVal;
  w_active_viewport : option ViewportAPI;
  w_viewport_window : option Window;
  w_physx_scene_api : bool;
  w_isaac_version : list string;
  w_timeline : nat -> TimelineState;
  w_clock : nat;
  w_timeline_callbacks : gset string;
  w_trace : list Event
}.

(** One interaction with the engine that only reads it. *)
Definition tick (w : World) : World :=
  {| w_stage := w_stage w; w_settings := w_settings w;
     w_active_viewport := w_active_viewport w;
     w_viewport_window := w_viewport_window w;
     w_physx_scene_api := w_physx_scene_api w;
     w_isaac_version := w_isaac_version w;
     w_timeline := w_timeline w; w_clock := S (w_clock w);
     w_timeline_callbacks := w_timeline_callbacks w;
     w_trace := w_trace w |}.

(** One delegated call: an interaction that is also recorded. *)
Definition log (e : Event) (w : World) : World :=
  {| w_stage := w_stage w; w_settings := w_settings w;
     w_active_viewport := w_active_viewport w;
     w_viewport_window := w_viewport_window w;
     w_physx_scene_api := w_physx_scene_api w;
     w_isaac_version := w_isaac_version w;
     w_timeline := w_timeline w; w_clock := S (w_clock w);
     w_timeline_callbacks := w_timeline_callbacks w;
     w_trace := w_trace w ++ [e] |}.

Definition with_settings (f : gmap string PyVal -> gmap string PyVal) (w : World) : World :=
  {| w_stage := w_stage w; w_settings := f (w_settings w);
     w_active_viewport := w_active_viewport w;
     w_viewport_window := w_viewport_window w;
     w_physx_scene_api := w_physx_scene_api w;
     w_isaac_version := w_isaac_version w;
     w_timeline := w_timeline w; w_clock := w_clock w;
     w_timeline_callbacks := w_timeline_callbacks w;
     w_trace := w_trace w |}.

Definition with_callbacks (f : gset string -> gset string) (w : World) : World :=
  {| w_stage := w_stage w; w_settings := w_settings w;
     w_active_viewport := w_active_viewport w;
     w_viewport_window := w_viewport_window w;
     w_physx_scene_api := w_physx_scene_api w;
     w_isaac_version := w_isaac_version w;
     w_timeline := w_timeline w; w_clock := w_clock w;
     w_timeline_callbacks := f (w_timeline_callbacks w);
     w_trace := w_trace w |}.

Definition timeline_now (w : World) : TimelineState := w_timeline w (w_clock w).

(** ** Configuration *)

(** Modelled from the spec: [simulation_cfg.py] ([SimulationCfg] and its
    [physx] part) is not among the sources.  The fields are the ones the
    adapter reads or writes, typed as the spec's data model describes them
    (time-step, substep count, device identifier, gravity vector, solver
    iteration counts, contact-processing flag, material reference,
    fabric/flatcache flags, prim path strings). *)
Record PhysxCfg := {
  enable_ccd : bool;
  gpu_collision_stack_size : Z;
  min_position_iteration_count : Z;
  max_position_iteration_count : Z;
  min_velocity_iteration_count : Z;
  max_velocity_iteration_count : Z
}.

(** Modelled from the spec: the configuration value of the spec's data
    model; [physics_material] stands for the material descriptor and its
    spawning function, which the adapter only passes on. *)
Record SimulationCfg := {
  dt : float;
  substeps : Z;
  device : string;
  physics_prim_path : string;
  gravity : float * float * float;
  disable_contact_processing : bool;
  enable_scene_query_support : bool;
  use_flatcache : bool;
  use_fabric : bool;
  shutdown_app_on_stop : bool;
  physics_material : string;
  physx : PhysxCfg
}.

Definition with_enable_scene_query_support (b : bool) (c : SimulationCfg) : SimulationCfg :=
  {| dt := dt c; substeps := substeps c; device := device c;
     physics_prim_path := physics_prim_path c; gravity := gravity c;
     disable_contact_processing := disable_contact_processing c;
     enable_scene_query_support := b;
     use_flatcache := use_flatcache c; use_fabric := use_fabric c;
     shutdown_app_on_stop := shutdown_app_on_stop c;
     physics_material := physics_material c; physx := physx c |}.

Definition with_gravity (g : float * float * float) (c : SimulationCfg) : SimulationCfg :=
  {| dt := dt c; substeps := substeps c; device := device c;
     physics_prim_path := physics_prim_path c; gravity := g;
     disable_contact_processing := disable_contact_processing c;
     enable_scene_query_support := enable_scene_query_support c;
     use_flatcache := use_flatcache c; use_fabric := use_fabric c;
     shutdown_app_on_stop := shutdown_app_on_stop c;
     physics_material := physics_material c; physx := physx c |}.

(** ** The adapter object *)

(** The attributes [__init__] creates.  The two throttle attributes are
    created on the GUI branch only, hence the options: reading an attribute
    that was never assigned is an [AttributeError].  The viewport and the
    window are objects of the engine to which the adapter keeps a
    reference; nothing else in this file writes their flags, so the record
    holds them by value. *)
Record Self := {
  cfg : SimulationCfg;
  _is_headless : bool;
  render_mode : RenderMode;
  _viewport_context : option ViewportAPI;
  _viewport_window : option Window;
  _render_throttle_counter : option Z;
  _render_throttle_period : option Z;
  _fabric_iface : option FabricIface;
  _isaacsim_version : list string
}.

Record St := { self : Self; world : World }.

Definition with_render_mode (m : RenderMode) (o : Self) : Self :=
  {| cfg := cfg o; _is_headless := _is_headless o; render_mode := m;
     _viewport_context := _viewport_context o;
     _viewport_window := _viewport_window o;
     _render_throttle_counter := _render_throttle_counter o;
     _render_throttle_period := _render_throttle_period o;
     _fabric_iface := _fabric_iface o;
     _isaacsim_version := _isaacsim_version o |}.

Definition with_viewport_context (v : option ViewportAPI) (o : Self) : Self :=
  {| cfg := cfg o; _is_headless := _is_headless o; render_mode := render_mode o;
     _viewport_context := v;
     _viewport_window := _viewport_window o;
     _render_throttle_counter := _render_throttle_counter o;
     _render_throttle_period := _render_throttle_period o;
     _fabric_iface := _fabric_iface o;
     _isaacsim_version := _isaacsim_version o |}.

Definition with_viewport_window (v : option Window) (o : Self) : Self :=
  {| cfg := cfg o; _is_headless := _is_headless o; render_mode := render_mode o;
     _viewport_context := _viewport_context o;
     _viewport_window := v;
     _render_throttle_counter := _render_throttle_counter o;
     _render_throttle_period := _render_throttle_period o;
     _fabric_iface := _fabric_iface o;
     _isaacsim_version := _isaacsim_version o |}.

Definition with_render_throttle_counter (c : option Z) (o : Self) : Self :=
  {| cfg := cfg o; _is_headless := _is_headless o; render_mode := render_mode o;
     _viewport_context := _viewport_context o;
     _viewport_window := _viewport_window o;
     _render_throttle_counter := c;
     _render_throttle_period := _render_throttle_period o;
     _fabric_iface := _fabric_iface o;
     _isaacsim_version := _isaacsim_version o |}.

Definition with_fabric_iface (f : option FabricIface) (o : Self) : Self :=
  {| cfg := cfg o; _is_headless := _is_headless o; render_mode := render_mode o;
     _viewport_context := _viewport_context o;
     _viewport_window := _viewport_window o;
     _render_throttle_counter := _render_throttle_counter o;
     _render_throttle_period := _render_throttle_period o;
     _fabric_iface := f;
     _isaacsim_version := _isaacsim_version o |}.

Definition with_isaacsim_version (v : list string) (o : Self) : Self :=
  {| cfg := cfg o; _is_headless := _is_headless o; render_mode := render_mode o;
     _viewport_context := _viewport_context o;
     _viewport_window := _viewport_window o;
     _render_throttle_counter := _render_throttle_counter o;
     _render_throttle_period := _render_throttle_period o;
     _fabric_iface := _fabric_iface o;
     _isaacsim_version := v |}.

Definition on_self (f : Self -> Self) (s : St) : St :=
  {| self := f (self s); world := world s |}.

Definition on_world (f : World -> World) (s : St) : St :=
  {| self := self s; world := f (world s) |}.

(** A call into the engine: one more entry in the trace. *)
Definition emit (e : Event) : M St unit := modify (on_world (log e)).

(** The trace a run appended, given the trace it started from. *)
Definition trace (s : St) : list Event := w_trace (world s).

(** *** Attribute access *)

(** [self._viewport_context.updates_enabled = b] *)
Definition assign_updates_enabled (b : bool) : M St unit :=
  s <- get ;;
  match _viewport_context (self s) with
  | None => raise (AttributeError "updates_enabled")
  | Some _ => modify (on_self (with_viewport_context (Some {| updates_enabled := b |})))
  end.

(** [self._viewport_window.visible = b] *)
Definition assign_visible (b : bool) : M St unit :=
  s <- get ;;
  match _viewport_window (self s) with
  | None => raise (AttributeError "visible")
  | Some _ => modify (on_self (with_viewport_window (Some {| visible := b |})))
  end.

Definition assign_render_throttle_counter (c : Z) : M St unit :=
  modify (on_self (with_render_throttle_counter (Some c))).

Definition read_render_throttle_counter : M St Z :=
  s <- get ;;
  match _render_throttle_counter (self s) with
  | None => raise (AttributeError "_render_throttle_counter")
  | Some c => ret c
  end.

Definition read_render_throttle_period : M St Z :=
  s <- get ;;
  match _render_throttle_period (self s) with
  | None => raise (AttributeError "_render_throttle_period")
  | Some p => ret p
  end.

(** ** Operations *)

(** [is_headless] *)
Definition is_headless : M St bool :=
  s <- get ;; ret (_is_headless (self s)).

(** [set_render_mode(mode)].  The chain of [if]/[elif] yields the member
    that [mode] was found equal to, which is what the assignment after the
    chain stores. *)
Definition set_render_mode (mode : PyVal) : M St unit :=
  s <- get ;;
  when (negb (is_mode mode (render_mode (self s)))
        && negb (RenderMode_eqb (render_mode (self s)) HEADLESS))
    (target <-
       (if is_mode mode FULL_RENDERING then
          assign_updates_enabled true ;;
          assign_visible true ;;
          ret FULL_RENDERING
        else if is_mode mode PARTIAL_RENDERING then
          assign_updates_enabled false ;;
          assign_visible false ;;
          ret PARTIAL_RENDERING
        else if is_mode mode NO_RENDERING then
          assign_updates_enabled false ;;
          assign_visible false ;;
          assign_render_throttle_counter 0 ;;
          ret NO_RENDERING
        else
          raise (ValueError "Unsupported rendering mode")) ;;
     modify (on_self (with_render_mode target))).

(** [x % y] on Python integers: floor remainder, which is [Z.modulo];
    a zero divisor raises. *)
Definition py_mod (x y : Z) : M St Z :=
  if y =? 0 then raise ZeroDivisionError else ret (x mod y).

(** [render(mode=None)] *)
Definition render (mode : PyVal) : M St unit :=
  when (negb match mode with VNone => true | _ => false end)
    (set_render_mode mode) ;;
  s <- get ;;
  if RenderMode_eqb (render_mode (self s)) NO_RENDERING then
    c <- read_render_throttle_counter ;;
    assign_render_throttle_counter (c + 1) ;;
    c' <- read_render_throttle_counter ;;
    p <- read_render_throttle_period ;;
    r <- py_mod c' p ;;
    when (r =? 0)
      (assign_render_throttle_counter 0 ;;
       emit BaseRender)
  else
    match _fabric_iface (self s) with
    | Some iface => emit (FabricUpdate iface 0 0)
    | None => ret tt
    end ;;
    emit BaseRender.

(** *** Python builtins used by the operations *)

Definition is_space (c : ascii) : bool :=
  let n := N_of_ascii c in
  ((9 <=? n) && (n <=? 13) || (28 <=? n) && (n <=? 32))%N.

Fixpoint lstrip (l : list ascii) : list ascii :=
  match l with
  | c :: l' => if is_space c then lstrip l' else l
  | [] => []
  end.

Definition strip (l : list ascii) : list ascii := rev (lstrip (rev (lstrip l))).

Definition digit_val (c : ascii) : option Z :=
  let n := Z.of_N (N_of_ascii c) in
  if (48 <=? n) && (n <=? 57) then Some (n - 48) else None.

(** Decimal digits, a single underscore allowed between two digits.
    [after_digit] tells whether the previous character was a digit. *)
Fixpoint digits (acc : Z) (after_digit : bool) (l : list ascii) : option Z :=
  match l with
  | [] => if after_digit then Some acc else None
  | c :: l' =>
      match digit_val c with
      | Some d => digits (10 * acc + d) true l'
      | None =>
          if Ascii.eqb c "_"%char && after_digit then digits acc false l' else None
      end
  end.

(** [int(s)] for a string of ASCII characters: surrounding white space is
    dropped, one sign is allowed, the rest is a decimal literal.  [None]
    stands for the [ValueError] of the builtin. *)
Definition py_int (s : string) : option Z :=
  match strip (list_ascii_of_string s) with
  | "-"%char :: l => Z.opp <$> digits 0 false l
  | "+"%char :: l => digits 0 false l
  | l => digits 0 false l
  end.

(** [float(n)] for a Python integer: the nearest binary64 value, ties to
    even; an integer beyond the largest float raises. *)
Definition float_of_Z {S} (z : Z) : M S float :=
  let f := SF2Prim (binary_normalize prec emax z 0 false) in
  if PrimFloat.is_infinity f then raise OverflowError else ret f.

(** [seq[i]] for a non-negative constant [i]. *)
Definition getitem {S A} (l : list A) (i : nat) : M S A :=
  match nth_error l i with
  | Some x => ret x
  | None => raise IndexError
  end.

Definition int_ {S} (s : string) : M S Z :=
  match py_int s with
  | Some z => ret z
  | None => raise (ValueError "invalid literal for int() with base 10")
  end.

(** Dictionaries in insertion order. *)
Fixpoint dict_get (k : string) (d : Dict) : option Param :=
  match d with
  | [] => None
  | (k', v) :: d' => if String.eqb k k' then Some v else dict_get k d'
  end.

Fixpoint dict_remove (k : string) (d : Dict) : Dict :=
  match d with
  | [] => []
  | (k', v) :: d' => if String.eqb k k' then d' else (k', v) :: dict_remove k d'
  end.

(** [d[k] = v]: an existing key keeps its place, a new one goes last. *)
Fixpoint dict_set (k : string) (v : Param) (d : Dict) : Dict :=
  match d with
  | [] => [(k, v)]
  | (k', v') :: d' =>
      if String.eqb k k' then (k, v) :: d' else (k', v') :: dict_set k v d'
  end.

(** [d.update(other)] *)
Definition dict_update (d other : Dict) : Dict :=
  fold_left (fun acc kv => dict_set (fst kv) (snd kv) acc) other d.

(** ** Gravity as a direction and a magnitude *)

(** The arithmetic the decomposition is written over.  The program runs it
    on binary64 numbers ([numpy.float64]); the same expressions read over
    the real numbers are what they compute when nothing is rounded. *)
Class Arith (T : Type) := {
  plus : T -> T -> T;
  times : T -> T -> T;
  divide : T -> T -> T;
  root : T -> T
}.

#[export] Instance binary64 : Arith float :=
  {| plus := PrimFloat.add; times := PrimFloat.mul;
     divide := PrimFloat.div; root := PrimFloat.sqrt |}.

#[export] Instance exact : Arith R :=
  {| plus := Rplus; times := Rmult; divide := Rdiv; root := sqrt |}.

Section Gravity.
Context {T : Type} `{Arith T}.

(** [x.dot(x)] for an array of three elements, summed from the left.
    (The order of the two additions is the BLAS routine's; nothing proved
    below on binary64 vectors depends on it, since at most one of the three
    products is non-zero there.) *)
Definition dot (x y : T * T * T) : T :=
  let '(x0, x1, x2) := x in
  let '(y0, y1, y2) := y in
  plus (plus (times x0 y0) (times x1 y1)) (times x2 y2).

(** [np.linalg.norm(x)] with the default order on a vector:
    [sqrt(x.dot(x))]. *)
Definition norm (x : T * T * T) : T := root (dot x x).

(** Lines 446-448: the pair [(gravity_direction, gravity_magnitude)].
    Dividing an array by a scalar divides each element; a zero divisor
    gives an infinity or a NaN under numpy's default error state, with a
    warning and no exception. *)
Definition gravity_decomposition (gravity : T * T * T) : (T * T * T) * T :=
  let gravity_magnitude := norm gravity in
  let '(g0, g1, g2) := gravity in
  let gravity_direction :=
    (divide g0 gravity_magnitude,
     divide g1 gravity_magnitude,
     divide g2 gravity_magnitude) in
  (gravity_direction, gravity_magnitude).
End Gravity.

(** ** Construction *)

(** [carb_settings_iface.set_bool(key, value)] *)
Definition set_bool (key : string) (value : bool) : M World unit :=
  modify (with_settings (fun m => <[key := VBool value]> m)).

(** [carb_settings_iface.get(key)]: [None] for a key that is not set. *)
Definition settings_get (key : string) : M World PyVal :=
  w <- get ;; ret (default VNone (w_settings w !! key)).

Section Construction.
(** What [SimulationCfg()] builds and what [cfg.to_dict()] returns: both
    belong to the configuration class, which is not among the sources. *)
Variable default_cfg : SimulationCfg.
Variable to_dict : SimulationCfg -> option Dict.

(** Lines 177-182: the [physx] sub-dictionary is merged into its parent. *)
Definition flatten (sim_params : option Dict) : M World (option Dict) :=
  match sim_params with
  | None => ret None
  | Some d =>
      match dict_get "physx" d with
      | None => ret (Some d)
      | Some physx_params =>
          let d' := dict_remove "physx" d in
          match physx_params with
          | PDict other => ret (Some (dict_update d' other))
          | _ => raise (TypeError "object is not iterable")
          end
      end
  end.

(** [SimulationContext.__init__(cfg=None)].  The result is the object;
    the state is the engine. *)
Definition __init__ (cfg : option SimulationCfg) : M World Self :=
  let cfg := match cfg with None => default_cfg | Some c => c end in
  w <- get ;;
  match w_stage w with
  | None =>
      raise (RuntimeError "The stage has not been created. Did you run the simulator?")
  | Some _ =>
      set_bool "/persistent/omnihydra/useSceneGraphInstancing" true ;;
      set_bool "/physics/physxDispatcher" true ;;
      when (disable_contact_processing cfg)
        (set_bool "/physics/disableContactProcessing" true) ;;
      set_bool "/physics/collisionConeCustomGeometry" false ;;
      set_bool "/physics/collisionCylinderCustomGeometry" false ;;
      enabled <- settings_get "/app/window/enabled" ;;
      let is_headless := negb (truthy enabled) in
      gui <-
        (if is_headless then
           ret (HEADLESS, None, None, None, None)
         else
           match w_active_viewport w with
           | None => raise (AttributeError "updates_enabled")
           | Some _ =>
               ret (FULL_RENDERING,
                    Some {| updates_enabled := true |},
                    w_viewport_window w,
                    Some 0, Some 5)
           end) ;;
      let '(mode, viewport_context, viewport_window, counter, period) := gui in
      let cfg :=
        if negb is_headless then with_enable_scene_query_support true cfg
        else cfg in
      sim_params <- flatten (to_dict cfg) ;;
      rendering_dt <-
        (n <- float_of_Z (substeps cfg) ;; ret (dt cfg * n)%float) ;;
      modify (log (BaseInit (dt cfg) rendering_dt sim_params
                     (physics_prim_path cfg) (device cfg))) ;;
      ret {| cfg := cfg;
             _is_headless := is_headless;
             render_mode := mode;
             _viewport_context := viewport_context;
             _viewport_window := viewport_window;
             _render_throttle_counter := counter;
             _render_throttle_period := period;
             _fabric_iface := None;
             _isaacsim_version := w_isaac_version w |}
  end.
End Construction.

(** ** Remaining operations *)

(** [get_version]: the elements of the tuple are evaluated left to right. *)
Definition get_version : M St (Z * Z * Z) :=
  s <- get ;;
  let v := _isaacsim_version (self s) in
  major <- (e <- getitem v 2 ;; int_ e) ;;
  minor <- (e <- getitem v 3 ;; int_ e) ;;
  patch <- (e <- getitem v 4 ;; int_ e) ;;
  ret (major, minor, patch).

(** [set_setting] and [get_setting] *)
Definition set_setting (name : string) (value : PyVal) : M St unit :=
  modify (on_world (with_settings (fun m => <[name := value]> m))).

Definition get_setting (name : string) : M St PyVal :=
  s <- get ;; ret (default VNone (w_settings (world s) !! name)).

(** The base class's table of named timeline subscriptions. *)
Definition timeline_callback_exists (name : string) : M St bool :=
  s <- get ;; ret (bool_decide (name ∈ w_timeline_callbacks (world s))).

Definition add_timeline_callback (name : string) : M St unit :=
  modify (on_world (with_callbacks (fun t => {[name]} ∪ t))) ;;
  emit (AddTimelineCallback name).

(** [reset(soft=False)].  Python's [and] does not look at the table when
    the configuration flag is off. *)
Definition reset (soft : bool) : M St unit :=
  when (negb soft) (emit ForceLoadPhysicsFromUsd) ;;
  emit (BaseReset soft) ;;
  s <- get ;;
  register <-
    (if shutdown_app_on_stop (cfg (self s)) then
       registered <- timeline_callback_exists "shutdown_app_on_stop" ;;
       ret (negb registered)
     else ret false) ;;
  when register (add_timeline_callback "shutdown_app_on_stop").

(** The two queries of the timeline; each one is an interaction with the
    engine, after which the timeline may have moved on. *)
Definition is_playing : M St bool :=
  s <- get ;;
  modify (on_world tick) ;;
  ret match timeline_now (world s) with PLAYING => true | _ => false end.

Definition is_stopped : M St bool :=
  s <- get ;;
  modify (on_world tick) ;;
  ret match timeline_now (world s) with STOPPED => true | _ => false end.

(** The [while] loop of [step], lines 341-345.  The loop has no bound of
    its own; [fuel] bounds the number of iterations the model follows. *)
Fixpoint poll (fuel : nat) : M St unit :=
  match fuel with
  | O => fun s => Blocked s
  | S fuel' =>
      playing <- is_playing ;;
      if playing then ret tt
      else
        render VNone ;;
        stopped <- is_stopped ;;
        if stopped then ret tt else poll fuel'
  end.

(** [step(render=True)] *)
Definition step (render_ : bool) (fuel : nat) : M St unit :=
  playing <- is_playing ;;
  when (negb playing)
    (poll fuel ;;
     emit AppUpdate) ;;
  emit (BaseStep render_).

(** [_set_additional_physx_params].  The event for the gravity direction
    records the three binary64 components handed to [Gf.Vec3f]. *)
Definition _set_additional_physx_params : M St unit :=
  s <- get ;;
  let cfg := cfg (self s) in
  if negb (w_physx_scene_api (world s)) then
    raise (RuntimeError "Physics scene API is None! Please create the scene first.")
  else
    emit (EnableCcd (enable_ccd (physx cfg))) ;;
    emit (CreateGpuCollisionStackSizeAttr (gpu_collision_stack_size (physx cfg))) ;;
    let '((d0, d1, d2), gravity_magnitude) := gravity_decomposition (gravity cfg) in
    emit (CreateGravityDirectionAttr d0 d1 d2) ;;
    emit (CreateGravityMagnitudeAttr gravity_magnitude) ;;
    version <- get_version ;;
    (if version.1.1 =? 2022 then
       emit (CreateMinIterationCountAttr (min_position_iteration_count (physx cfg))) ;;
       emit (CreateMaxIterationCountAttr (max_position_iteration_count (physx cfg)))
     else
       emit (CreateMinPositionIterationCountAttr (min_position_iteration_count (physx cfg))) ;;
       emit (CreateMaxPositionIterationCountAttr (max_position_iteration_count (physx cfg))) ;;
       emit (CreateMinVelocityIterationCountAttr (min_velocity_iteration_count (physx cfg))) ;;
       emit (CreateMaxVelocityIterationCountAttr (max_velocity_iteration_count (physx cfg)))) ;;
    let material_path := (physics_prim_path cfg ++ "/defaultMaterial")%string in
    emit (SpawnPhysicsMaterial material_path (physics_material cfg)) ;;
    emit (BindPhysicsMaterial (physics_prim_path cfg) material_path).

(** [_load_fabric_interface] *)
Definition _load_fabric_interface : M St unit :=
  s <- get ;;
  version <- get_version ;;
  if version.1.1 =? 2022 then
    when (use_flatcache (cfg (self s)))
      (modify (on_self (with_fabric_iface (Some PhysxFlatcache))))
  else
    when (use_fabric (cfg (self s)))
      (modify (on_self (with_fabric_iface (Some PhysxFabric)))).

(** [_init_stage] *)
Definition _init_stage : M St unit :=
  emit BaseInitStage ;;
  _set_additional_physx_params ;;
  _load_fabric_interface.

(** The two coroutines.  The adapter is driven by one thread and an
    [await] hands control to the base class until its coroutine is done,
    so each is the sequence of its statements. *)
Definition reset_async (soft : bool) : M St unit :=
  when (negb soft) (emit ForceLoadPhysicsFromUsd) ;;
  emit (BaseResetAsync soft).

Definition _initialize_stage_async : M St unit :=
  emit BaseInitializeStageAsync ;;
  _set_additional_physx_params ;;
  _load_fabric_interface.

(** ** Histories of an adapter *)

(** [n] consecutive calls of [render()]. *)
Fixpoint render_times (n : nat) : M St unit :=
  match n with
  | O => ret tt
  | S n' => render VNone ;; render_times n'
  end.

(** Calls of [reset], one per element of [softs], in order. *)
Fixpoint resets (softs : list bool) : M St unit :=
  match softs with
  | [] => ret tt
  | soft :: softs' => reset soft ;; resets softs'
  end.

(** The calls a client, or the base class, can make on a constructed
    adapter. *)
Inductive Call :=
| CallSetRenderMode (mode : PyVal)
| CallRender (mode : PyVal)
| CallStep (render_ : bool) (fuel : nat)
| CallReset (soft : bool)
| CallResetAsync (soft : bool)
| CallSetSetting (name : string) (value : PyVal)
| CallInitStage
| CallInitializeStageAsync.

Definition call (c : Call) : M St unit :=
  match c with
  | CallSetRenderMode mode => set_render_mode mode
  | CallRender mode => render mode
  | CallStep render_ fuel => step render_ fuel
  | CallReset soft => reset soft
  | CallResetAsync soft => reset_async soft
  | CallSetSetting name value => set_setting name value
  | CallInitStage => _init_stage
  | CallInitializeStageAsync => _initialize_stage_async
  end.

(** The states an adapter goes through: the one construction returns, and
    the one any call leaves behind, whether the call returned or raised. *)
Inductive reachable : St -> Prop :=
| reachable_init default_cfg to_dict cfg w o w' :
    __init__ default_cfg to_dict cfg w = Ok o w' ->
    reachable {| self := o; world := w' |}
| reachable_call c s :
    reachable s -> reachable (state_of (call c s)).

(** ** Vocabulary of the statements *)

(** The engine after a sequence of delegated calls. *)
Definition log_all (t : list Event) (w : World) : World :=
  fold_left (fun w e => log e w) t w.

Definition clock (s : St) : nat := w_clock (world s).

(** The timeline of the run, at tick [k]. *)
Definition timeline_at (s : St) (k : nat) : TimelineState := w_timeline (world s) k.

(** An operation keeps a property of the state, however it ends. *)
Definition preserves {A} (I : St -> Prop) (m : M St A) : Prop :=
  forall s, I s -> I (state_of (m s)).

(** A property of the object alone is not affected by the engine. *)
Definition about_self (I : St -> Prop) : Prop :=
  forall s s', self s = self s' -> I s -> I s'.

(** Outside HEADLESS the throttle counter exists and stays below the
    period, which is 5. *)
Definition throttle_ok (o : Self) : bool :=
  match render_mode o with
  | HEADLESS => true
  | _ =>
      match _render_throttle_counter o, _render_throttle_period o with
      | Some c, Some p => (0 <=? c) && (c <? p) && (p =? 5)
      | _, _ => false
      end
  end.

Definition throttle_inv (s : St) : Prop := throttle_ok (self s) = true.

(** What [render] delegates to the engine. *)
Definition is_render_event (e : Event) : bool :=
  match e with
  | BaseRender | FabricUpdate _ _ _ => true
  | _ => false
  end.

(** [s'] is a later state of the run that went through [s]: the schedule
    of the timeline is the same, the clock has not gone back, and the trace
    grew by events that satisfy [P]. *)
Definition after (P : Event -> bool) (s s' : St) : Prop :=
  w_timeline (world s') = w_timeline (world s) /\
  (w_clock (world s) <= w_clock (world s'))%nat /\
  exists t, trace s' = trace s ++ t /\ forallb P t = true.

Definition is_shutdown_registration (e : Event) : bool :=
  match e with
  | AddTimelineCallback name => String.eqb name "shutdown_app_on_stop"
  | _ => false
  end.

(** How many times a trace registers the shutdown callback. *)
Definition registrations (t : list Event) : nat :=
  length (filter is_shutdown_registration t).

(** Whether the base class's table has the shutdown callback. *)
Definition shutdown_registered (s : St) : bool :=
  bool_decide ("shutdown_app_on_stop" ∈ w_timeline_callbacks (world s)).

(** What a call of [reset(soft)] delegates before it looks at the table
    of callbacks. *)
Definition reset_prefix (soft : bool) : list Event :=
  (if soft then [] else [ForceLoadPhysicsFromUsd]) ++ [BaseReset soft].

(** ** Sessions used as examples *)

Definition example_cfg : SimulationCfg :=
  {| dt := 0.01; substeps := 4; device := "cuda:0";
     physics_prim_path := "/physicsScene";
     gravity := (0, 0, -9.81)%float;
     disable_contact_processing := false;
     enable_scene_query_support := false;
     use_flatcache := true; use_fabric := true;
     shutdown_app_on_stop := true;
     physics_material := "RigidBodyMaterialCfg";
     physx := {| enable_ccd := false;
                 gpu_collision_stack_size := 67108864;
                 min_position_iteration_count := 1;
                 max_position_iteration_count := 255;
                 min_velocity_iteration_count := 0;
                 max_velocity_iteration_count := 255 |} |}.

Definition example_to_dict (c : SimulationCfg) : option Dict :=
  Some [("dt", PFloat (dt c));
        ("device", PLeaf (VStr (device c)));
        ("physx", PDict [("enable_ccd", PLeaf (VBool (enable_ccd (physx c))))])].

(** The timeline is paused for the first [n] interactions, then plays. *)
Definition paused_until (n : nat) : nat -> TimelineState :=
  fun t => if (t <? n)%nat then PAUSED else PLAYING.

(** An engine with an open stage; [window_enabled] is the setting that
    decides between a GUI and a headless session. *)
Definition example_world (window_enabled : bool) (schedule : nat -> TimelineState) : World :=
  {| w_stage := Some "/World";
     w_settings := {[ "/app/window/enabled" := VBool window_enabled ]};
     w_active_viewport := Some {| updates_enabled := false |};
     w_viewport_window := Some {| visible := true |};
     w_physx_scene_api := true;
     w_isaac_version := ["2023.1.0"; "rc.1"; "2023"; "1"; "0"; ""; ""; ""];
     w_timeline := schedule;
     w_clock := 0;
     w_timeline_callbacks := ∅;
     w_trace := [] |}.

(** An engine in which no stage was created. *)
Definition no_stage_world : World :=
  {| w_stage := None;
     w_settings := {[ "/app/window/enabled" := VBool true ]};
     w_active_viewport := Some {| updates_enabled := false |};
     w_viewport_window := Some {| visible := true |};
     w_physx_scene_api := false;
     w_isaac_version := ["2023.1.0"; "rc.1"; "2023"; "1"; "0"; ""; ""; ""];
     w_timeline := paused_until 0;
     w_clock := 0;
     w_timeline_callbacks := ∅;
     w_trace := [] |}.

(** The object and the engine as construction leaves them (see
    [example_session_constructed]). *)
Definition example_session (window_enabled : bool) (schedule : nat -> TimelineState) : St :=
  let w := example_world window_enabled schedule in
  {| self :=
       {| cfg := if window_enabled
                 then with_enable_scene_query_support true example_cfg
                 else example_cfg;
          _is_headless := negb window_enabled;
          render_mode := if window_enabled then FULL_RENDERING else HEADLESS;
          _viewport_context :=
            if window_enabled then Some {| updates_enabled := true |} else None;
          _viewport_window :=
            if window_enabled then Some {| visible := true |} else None;
          _render_throttle_counter := if window_enabled then Some 0 else None;
          _render_throttle_period := if window_enabled then Some 5 else None;
          _fabric_iface := None;
          _isaacsim_version := w_isaac_version w |};
     world := state_of (__init__ example_cfg example_to_dict None w) |}.

Definition headless_session : St := example_session false (paused_until 0).
Definition gui_session : St := example_session true (paused_until 0).

(** A GUI session whose timeline is paused for a while, and one whose
    timeline is never started. *)
Definition paused_session : St := example_session true (paused_until 9).
Definition never_played_session : St := example_session true (fun _ => PAUSED).

(** A GUI session that was switched to NO_RENDERING by a call of
    [render(NO_RENDERING)]. *)
Definition no_rendering_session : St :=
  state_of (call (CallRender (VMode NO_RENDERING)) gui_session).

(** An adapter whose VERSION file had four dotted components, so that the
    patch element is not an integer literal. *)
Definition odd_version_session : St :=
  on_self (with_isaacsim_version ["2023.1.1.2"; ""; "2023"; "1"; "1.2"; ""; ""; ""])
    headless_session.


(** A headless session configured with the zero vector as gravity. *)
Definition zero_gravity_session : St :=
  match __init__ example_cfg example_to_dict
          (Some (with_gravity (0, 0, 0)%float example_cfg))
          (example_world false (paused_until 0)) with
  | Ok o w => {| self := o; world := w |}
  | _ => headless_session
  end.

(** An engine whose viewport exists but whose "Viewport" window does not:
    [ui.Workspace.get_window] returned [None]. *)
Definition windowless_world : World :=
  {| w_stage := Some "/World";
     w_settings := {[ "/app/window/enabled" := VBool true ]};
     w_active_viewport := Some {| updates_enabled := false |};
     w_viewport_window := None;
     w_physx_scene_api := true;
     w_isaac_version := ["2023.1.0"; "rc.1"; "2023"; "1"; "0"; ""; ""; ""];
     w_timeline := paused_until 0;
     w_clock := 0;
     w_timeline_callbacks := ∅;
     w_trace := [] |}.

Definition windowless_session : St :=
  match __init__ example_cfg example_to_dict None windowless_world with
  | Ok o w => {| self := o; world := w |}
  | _ => gui_session
  end.

(** [updates_enabled] and [visible] after a switch to [m]. *)
Definition shown (m : RenderMode) : bool := RenderMode_eqb m FULL_RENDERING.

(** What [render] sends to the data bridge before the base render. *)
Definition fabric_flush (o : Self) : list Event :=
  match _fabric_iface o with
  | Some iface => [FabricUpdate iface 0 0]
  | None => []
  end.

(** The attributes that go with each of the two kinds of session: a
    headless adapter is in HEADLESS and holds no viewport, a GUI adapter is
    in one of the other modes and holds its viewport. *)
Definition shape_ok (o : Self) : bool :=
  if _is_headless o then
    RenderMode_eqb (render_mode o) HEADLESS
    && negb (bool_decide (is_Some (_viewport_context o)))
    && negb (bool_decide (is_Some (_viewport_window o)))
  else
    negb (RenderMode_eqb (render_mode o) HEADLESS)
    && bool_decide (is_Some (_viewport_context o)).

Definition shape_inv (s : St) : Prop := shape_ok (self s) = true.

(** The attributes that no operation writes after construction have the
    values they have in [o0]. *)
Definition frame_inv (o0 : Self) (s : St) : Prop :=
  cfg (self s) = cfg o0 /\
  _is_headless (self s) = _is_headless o0 /\
  _isaacsim_version (self s) = _isaacsim_version o0 /\
  _render_throttle_period (self s) = _render_throttle_period o0.


(** Whether the engine has its window enabled, which is what makes a
    session a GUI session. *)
Definition window_enabled (w : World) : bool :=
  truthy (default VNone (w_settings w !! "/app/window/enabled")).



(** The five settings construction writes. *)
Definition construction_keys : list string :=
  ["/persistent/omnihydra/useSceneGraphInstancing";
   "/physics/physxDispatcher";
   "/physics/disableContactProcessing";
   "/physics/collisionConeCustomGeometry";
   "/physics/collisionCylinderCustomGeometry"].

(** An engine with a window but no active viewport. *)
Definition viewportless_world : World :=
  {| w_stage := Some "/World";
     w_settings := {[ "/app/window/enabled" := VBool true ]};
     w_active_viewport := None;
     w_viewport_window := None;
     w_physx_scene_api := true;
     w_isaac_version := ["2023.1.0"; "rc.1"; "2023"; "1"; "0"; ""; ""; ""];
     w_timeline := paused_until 0;
     w_clock := 0;
     w_timeline_callbacks := ∅;
     w_trace := [] |}.

(** A GUI session whose configuration does not ask for the shutdown
    callback. *)
Definition with_shutdown_app_on_stop (b : bool) (c : SimulationCfg) : SimulationCfg :=
  {| dt := dt c; substeps := substeps c; device := device c;
     physics_prim_path := physics_prim_path c; gravity := gravity c;
     disable_contact_processing := disable_contact_processing c;
     enable_scene_query_support := enable_scene_query_support c;
     use_flatcache := use_flatcache c; use_fabric := use_fabric c;
     shutdown_app_on_stop := b;
     physics_material := physics_material c; physx := physx c |}.

Definition quiet_session : St :=
  match __init__ example_cfg example_to_dict
          (Some (with_shutdown_app_on_stop false example_cfg))
          (example_world true (paused_until 0)) with
  | Ok o w => {| self := o; world := w |}
  | _ => gui_session
  end.

(** The events of a trace that are not registrations of the shutdown
    callback. *)
Definition without_registrations (t : list Event) : list Event :=
  filter (fun e => negb (is_shutdown_registration e)) t.

(** The object differs from [o0] in its throttle counter at most. *)
Definition only_counter_differs (o0 : Self) (s : St) : Prop :=
  exists c, self s = with_render_throttle_counter c o0.

(** A GUI session whose timeline is stopped. *)
Definition stopped_session : St := example_session true (fun _ => STOPPED).

(** What [_set_additional_physx_params] delegates before it reads the
    version: collision detection, collision stack, gravity. *)
Definition scene_attributes (c : SimulationCfg) : list Event :=
  let '((d0, d1, d2), magnitude) := gravity_decomposition (gravity c) in
  [EnableCcd (enable_ccd (physx c));
   CreateGpuCollisionStackSizeAttr (gpu_collision_stack_size (physx c));
   CreateGravityDirectionAttr d0 d1 d2;
   CreateGravityMagnitudeAttr magnitude].

(** The solver iteration attributes, by major version. *)
Definition iteration_attributes (c : SimulationCfg) (major : Z) : list Event :=
  if major =? 2022 then
    [CreateMinIterationCountAttr (min_position_iteration_count (physx c));
     CreateMaxIterationCountAttr (max_position_iteration_count (physx c))]
  else
    [CreateMinPositionIterationCountAttr (min_position_iteration_count (physx c));
     CreateMaxPositionIterationCountAttr (max_position_iteration_count (physx c));
     CreateMinVelocityIterationCountAttr (min_velocity_iteration_count (physx c));
     CreateMaxVelocityIterationCountAttr (max_velocity_iteration_count (physx c))].

(** The default material: created, then bound to the physics scene. *)
Definition default_material (c : SimulationCfg) : list Event :=
  [SpawnPhysicsMaterial (physics_prim_path c ++ "/defaultMaterial")%string
     (physics_material c);
   BindPhysicsMaterial (physics_prim_path c)
     (physics_prim_path c ++ "/defaultMaterial")%string].

(** The data bridge [_load_fabric_interface] leaves, by major version. *)
Definition chosen_fabric_iface (o : Self) (major : Z) : option FabricIface :=
  if major =? 2022 then
    if use_flatcache (cfg o) then Some PhysxFlatcache else _fabric_iface o
  else
    if use_fabric (cfg o) then Some PhysxFabric else _fabric_iface o.

Definition is_velocity_attribute (e : Event) : bool :=
  match e with
  | CreateMinVelocityIterationCountAttr _ | CreateMaxVelocityIterationCountAttr _ => true
  | _ => false
  end.

(** A session whose engine has no physics scene yet, and a session of the
    2022 release. *)
Definition without_scene_api (w : World) : World :=
  {| w_stage := w_stage w; w_settings := w_settings w;
     w_active_viewport := w_active_viewport w;
     w_viewport_window := w_viewport_window w;
     w_physx_scene_api := false;
     w_isaac_version := w_isaac_version w;
     w_timeline := w_timeline w; w_clock := w_clock w;
     w_timeline_callbacks := w_timeline_callbacks w;
     w_trace := w_trace w |}.

Definition sceneless_session : St := on_world without_scene_api headless_session.

Definition legacy_session : St :=
  on_self (with_isaacsim_version ["2022.2.1"; ""; "2022"; "2"; "1"; ""; ""; ""])
    headless_session.

(** ** The shutdown callback *)

(** What the callback talks to besides the adapter: the replicator's
    orchestrator, the USD context and the application.  Each call into the
    replicator either returns or raises; [None] stands for a call that
    returns. *)
Inductive OrchestratorStatus :=
| NOT_STARTED | STARTED | WAITING | ORCHESTRATOR_PAUSED | STOPPING | ORCHESTRATOR_STOPPED.

Record Replicator := {
  rep_import : option Exn;
  rep_get_status : OrchestratorStatus + Exn;
  rep_stop : option Exn;
  rep_wait_until_complete : option Exn
}.

Inductive ShutdownEvent :=
| RepImport
| RepGetStatus
| RepStop
| RepWaitUntilComplete
| ClearAllCallbacks
| CloseStage
| PrintAndLog (msg : string)
| AppShutdown
| UnloadAllPlugins
| Print (msg : string).

(** The process at the time of a timeline event: the adapter and its
    engine, whether the simulator was launched from a terminal
    ([builtins.ISAAC_LAUNCHED_FROM_TERMINAL]), the replicator, whether the
    stage can be closed, and what the callback has called so far. *)
Record Process := {
  p_st : St;
  p_launched_from_terminal : bool;
  p_replicator : Replicator;
  p_can_close_stage : bool;
  p_calls : list ShutdownEvent
}.

Definition called (e : ShutdownEvent) : M Process unit :=
  modify (fun p =>
    {| p_st := p_st p;
       p_launched_from_terminal := p_launched_from_terminal p;
       p_replicator := p_replicator p;
       p_can_close_stage := p_can_close_stage p;
       p_calls := p_calls p ++ [e] |}).

(** A call that may raise: it is recorded, then it returns or raises. *)
Definition may_raise (e : ShutdownEvent) (outcome : option Exn) : M Process unit :=
  called e ;;
  match outcome with
  | None => ret tt
  | Some exn => raise exn
  end.

(** [try: body / except Exception: pass].  Every exception of the model is
    an [Exception]; the writes made before the raise stay. *)
Definition try_except_pass {S} (body : M S unit) : M S unit :=
  fun s =>
    match body s with
    | Raise _ s' => Ok tt s'
    | r => r
    end.

(** [self.clear_all_callbacks()]: the base class empties its tables. *)
Definition clear_all_callbacks : M Process unit :=
  called ClearAllCallbacks ;;
  modify (fun p =>
    {| p_st := on_world (with_callbacks (fun _ => ∅)) (p_st p);
       p_launched_from_terminal := p_launched_from_terminal p;
       p_replicator := p_replicator p;
       p_can_close_stage := p_can_close_stage p;
       p_calls := p_calls p |}).

Definition is_stopped_or_stopping (status : OrchestratorStatus) : bool :=
  match status with
  | ORCHESTRATOR_STOPPED | STOPPING => true
  | _ => false
  end.

Section Callback.
(** [int(omni.timeline.TimelineEventType.STOP)]; the enumeration belongs to
    the engine. *)
Variable STOP : Z.

(** [_shutdown_app_on_stop_callback(event)], with [event_type] for
    [event.type]. *)
Definition _shutdown_app_on_stop_callback (event_type : Z) : M Process unit :=
  when (event_type =? STOP)
    (p <- get ;;
     when (negb (p_launched_from_terminal p))
       (try_except_pass
          (may_raise RepImport (rep_import (p_replicator p)) ;;
           rep_status <-
             (called RepGetStatus ;;
              match rep_get_status (p_replicator p) with
              | inl status => ret status
              | inr exn => raise exn
              end) ;;
           when (negb (is_stopped_or_stopping rep_status))
             (may_raise RepStop (rep_stop (p_replicator p))) ;;
           may_raise RepWaitUntilComplete (rep_wait_until_complete (p_replicator p)))) ;;
     clear_all_callbacks ;;
     when (p_can_close_stage p) (called CloseStage) ;;
     called (PrintAndLog "Simulation is stopped. Shutting down the app.") ;;
     called AppShutdown ;;
     called UnloadAllPlugins ;;
     called (Print "Exiting the application complete.")).
End Callback.

Definition is_replicator_call (e : ShutdownEvent) : bool :=
  match e with
  | RepImport | RepGetStatus | RepStop | RepWaitUntilComplete => true
  | _ => false
  end.

(** How the callback ends, whatever came before. *)
Definition shutdown_sequence (can_close_stage : bool) : list ShutdownEvent :=
  [ClearAllCallbacks]
  ++ (if can_close_stage then [CloseStage] else [])
  ++ [PrintAndLog "Simulation is stopped. Shutting down the app.";
      AppShutdown; UnloadAllPlugins;
      Print "Exiting the application complete."].

(** A replicator that is rendering and whose [stop] fails, in a process
    started from a script. *)
Definition failing_replicator : Replicator :=
  {| rep_import := None;
     rep_get_status := inl STARTED;
     rep_stop := Some (RuntimeError "orchestrator is busy");
     rep_wait_until_complete := None |}.

Definition example_process : Process :=
  {| p_st := state_of (reset false gui_session);
     p_launched_from_terminal := false;
     p_replicator := failing_replicator;
     p_can_close_stage := true;
     p_calls := [] |}.

(** * Properties *)

(** Unfolding of the monad's plumbing, used before a case analysis on the
    tests of an operation. *)
Ltac unfold_m :=
  unfold when, emit, modify, get, raise, ret, bind in *.

Ltac step_if :=
  match goal with
  | |- context [if ?c then _ else _] => destruct c eqn:?
  | H : context [if ?c then _ else _] |- _ => destruct c eqn:?
  | |- context [match ?c with Some _ => _ | None => _ end] => destruct c eqn:?
  | H : context [match ?c with Some _ => _ | None => _ end] |- _ => destruct c eqn:?
  end.

Lemma RenderMode_eqb_spec a b : reflect (a = b) (RenderMode_eqb a b).
Proof. destruct a, b; vm_compute; constructor; congruence. Qed.

(** The example sessions are what the constructor returns. *)
Example example_session_constructed window_enabled schedule :
  __init__ example_cfg example_to_dict None (example_world window_enabled schedule)
  = Ok (self (example_session window_enabled schedule))
       (world (example_session window_enabled schedule)).
Proof. destruct window_enabled; vm_compute; reflexivity. Qed.

Lemma gui_session_reachable : reachable gui_session.
Proof.
  exact (reachable_init _ _ _ _ _ _ (example_session_constructed true (paused_until 0))).
Qed.

(** ** Render-mode state machine *)

(** An argument without a branch fails the three tests of the chain. *)
Lemma supported_false v :
  supported v = false ->
  is_mode v FULL_RENDERING = false /\
  is_mode v PARTIAL_RENDERING = false /\
  is_mode v NO_RENDERING = false.
Proof.
  unfold supported. intros H.
  apply orb_false_elim in H as [H ?]. apply orb_false_elim in H as [? ?]. auto.
Qed.

(** In HEADLESS the guard of [set_render_mode] fails whatever the argument. *)
Lemma set_render_mode_headless x s :
  render_mode (self s) = HEADLESS -> set_render_mode x s = Ok tt s.
Proof.
  intros Hm. unfold set_render_mode. unfold_m. rewrite Hm.
  simpl. rewrite andb_false_r. reflexivity.
Qed.

(** In a GUI mode an argument without a branch reaches the [else] of the
    chain, before anything was written. *)
Lemma set_render_mode_unsupported x s :
  render_mode (self s) <> HEADLESS -> supported x = false ->
  set_render_mode x s = Raise (ValueError "Unsupported rendering mode") s.
Proof.
  intros Hm Hx. destruct (supported_false _ Hx) as (Hf & Hp & Hn).
  unfold set_render_mode. unfold_m.
  assert (is_mode x (render_mode (self s)) = false) as ->.
  { destruct (render_mode (self s)) eqn:E; try assumption; congruence. }
  destruct (RenderMode_eqb_spec (render_mode (self s)) HEADLESS); [contradiction|].
  simpl. rewrite Hf, Hp, Hn. reflexivity.
Qed.

(** A [ValueError] can only come from the [else] of the chain. *)
Lemma set_render_mode_ValueError x s msg s' :
  set_render_mode x s = Raise (ValueError msg) s' -> s' = s.
Proof.
  unfold set_render_mode, assign_updates_enabled, assign_visible,
    assign_render_throttle_counter.
  unfold_m. intros H.
  repeat (step_if; simpl in *; try discriminate); congruence.
Qed.

(** C2. HEADLESS is absorbing: when the current render mode is HEADLESS,
    [set_render_mode(x)] returns for every argument [x], members of the enum
    or not, and the whole state (render mode, viewport and window flags,
    throttle counter, engine) is the one before the call. *)
Theorem headless_is_absorbing (x : PyVal) (s : St) :
  render_mode (self s) = HEADLESS ->
  set_render_mode x s = Ok tt s.
Proof. apply set_render_mode_headless. Qed.

Lemma headless_is_absorbing_witness :
  set_render_mode (VMode FULL_RENDERING) headless_session = Ok tt headless_session.
Proof. apply (headless_is_absorbing (VMode FULL_RENDERING) headless_session). reflexivity. Defined.

(** C4 as stated fails: a call with an argument outside the enum, made in
    a headless session, returns instead of raising. *)
Lemma unsupported_mode_in_headless_returns :
  supported (VInt 7) = false /\
  ~ (exists msg s', set_render_mode (VInt 7) headless_session = Raise (ValueError msg) s').
Proof.
  split; [reflexivity|].
  rewrite set_render_mode_headless by reflexivity.
  intros (msg & s' & H). discriminate H.
Qed.

(** C4, amended. An argument that is none of FULL_RENDERING,
    PARTIAL_RENDERING and NO_RENDERING (a value outside the enum, [None],
    or HEADLESS itself) makes [set_render_mode] raise [ValueError] whenever
    the current render mode is not HEADLESS, with the state as it was
    before the call; when the current render mode is HEADLESS the call
    returns without raising and without effect. *)
Theorem unsupported_mode_raises (mode : PyVal) (s : St) :
  supported mode = false ->
  set_render_mode mode s =
  if RenderMode_eqb (render_mode (self s)) HEADLESS
  then Ok tt s
  else Raise (ValueError "Unsupported rendering mode") s.
Proof.
  intros Hx. destruct (RenderMode_eqb_spec (render_mode (self s)) HEADLESS).
  - apply set_render_mode_headless; assumption.
  - apply set_render_mode_unsupported; assumption.
Qed.

Lemma unsupported_mode_raises_witness :
  set_render_mode (VStr "wireframe") gui_session
  = Raise (ValueError "Unsupported rendering mode") gui_session.
Proof. exact (unsupported_mode_raises (VStr "wireframe") gui_session eq_refl). Defined.

(** C9. A call of [set_render_mode] that raises [ValueError] (the target
    has no branch) leaves the state as it was: the render mode, the
    viewport's [updates_enabled], the window's [visible], and everything
    else. *)
Theorem set_render_mode_atomic_on_error (mode : PyVal) (s s' : St) (msg : string) :
  set_render_mode mode s = Raise (ValueError msg) s' ->
  render_mode (self s') = render_mode (self s) /\
  _viewport_context (self s') = _viewport_context (self s) /\
  _viewport_window (self s') = _viewport_window (self s) /\
  s' = s.
Proof.
  intros H. apply set_render_mode_ValueError in H. subst. auto.
Qed.

Lemma set_render_mode_atomic_on_error_witness :
  exists s',
    set_render_mode (VMode HEADLESS) gui_session =
      Raise (ValueError "Unsupported rendering mode") s' /\
    s' = gui_session.
Proof.
  exists gui_session.
  assert (set_render_mode (VMode HEADLESS) gui_session =
          Raise (ValueError "Unsupported rendering mode") gui_session) as H
    by (vm_compute; reflexivity).
  split; [exact H|].
  apply (set_render_mode_atomic_on_error (VMode HEADLESS) gui_session gui_session
           "Unsupported rendering mode" H).
Defined.

(** ** Throttled rendering *)

(** One call of [render()] in NO_RENDERING. *)
Lemma render_no_rendering s c p :
  render_mode (self s) = NO_RENDERING ->
  _render_throttle_counter (self s) = Some c ->
  _render_throttle_period (self s) = Some p ->
  p <> 0 ->
  render VNone s =
  Ok tt (if (c + 1) mod p =? 0
         then on_world (log BaseRender) (on_self (with_render_throttle_counter (Some 0)) s)
         else on_self (with_render_throttle_counter (Some (c + 1))) s).
Proof.
  intros Hm Hc Hp Hp0.
  unfold render, read_render_throttle_counter, read_render_throttle_period,
    assign_render_throttle_counter, py_mod.
  unfold_m. simpl. rewrite Hm. simpl. rewrite Hc. simpl. rewrite Hp.
  destruct (Z.eqb_spec p 0); [contradiction|].
  destruct ((c + 1) mod p =? 0); reflexivity.
Qed.

(** Writing the value an attribute already has changes nothing. *)
Lemma with_counter_same s c :
  _render_throttle_counter (self s) = Some c ->
  on_self (with_render_throttle_counter (Some c)) s = s.
Proof. destruct s as [[] ?]; simpl; intros ->; reflexivity. Qed.

(** [n] calls in a row, from a counter below the period: the counter
    advances modulo the period and the base class renders once each time it
    wraps. *)
Lemma render_times_no_rendering n : forall s c p,
  render_mode (self s) = NO_RENDERING ->
  _render_throttle_counter (self s) = Some c ->
  _render_throttle_period (self s) = Some p ->
  0 <= c < p ->
  render_times n s =
  Ok tt (on_world (log_all (repeat BaseRender (Z.to_nat ((c + Z.of_nat n) / p))))
           (on_self (with_render_throttle_counter (Some ((c + Z.of_nat n) mod p))) s)).
Proof.
  induction n as [|n IH]; intros s c p Hm Hc Hp Hr.
  - simpl. rewrite Z.add_0_r, Z.div_small, Z.mod_small by lia.
    simpl. unfold ret. f_equal.
    rewrite <- (with_counter_same s c) at 1 by assumption. reflexivity.
  - cbn [render_times]. unfold bind at 1.
    rewrite (render_no_rendering s c p) by (assumption || lia).
    destruct (Z.eqb_spec ((c + 1) mod p) 0) as [E|E].
    + assert (c + 1 = p) as Hcp.
      { destruct (Z.eq_dec (c + 1) p); [assumption|].
        rewrite Z.mod_small in E by lia. lia. }
      rewrite (IH _ 0 p) by (simpl; auto; lia).
      replace (c + Z.of_nat (S n)) with (Z.of_nat n + 1 * p) by lia.
      rewrite Z.div_add, Z.mod_add by lia.
      replace (0 + Z.of_nat n) with (Z.of_nat n) by lia.
      replace (Z.to_nat (Z.of_nat n / p + 1)) with (S (Z.to_nat (Z.of_nat n / p))).
      2:{ assert (0 <= Z.of_nat n / p) by (apply Z.div_pos; lia). lia. }
      reflexivity.
    + assert (c + 1 < p) as Hcp.
      { destruct (Z.eq_dec (c + 1) p) as [Heq|]; [|lia].
        rewrite Heq, Z_mod_same_full in E. congruence. }
      rewrite (IH _ (c + 1) p) by (simpl; auto; lia).
      replace (c + Z.of_nat (S n)) with (c + 1 + Z.of_nat n) by lia.
      reflexivity.
Qed.

(** The trace after a sequence of delegated calls. *)
Lemma trace_log_all t s :
  trace (on_world (log_all t) s) = trace s ++ t.
Proof.
  unfold trace, on_world. simpl. generalize (world s) as w.
  induction t as [|e t IH]; intros w; simpl.
  - now rewrite app_nil_r.
  - unfold log_all in IH. rewrite IH. simpl. now rewrite <- app_assoc.
Qed.

(** ** What every reachable state satisfies *)

(** [preserves I] goes through the combinators of the monad. *)


Lemma preserves_ret {A} I (a : A) : preserves I (ret a).
Proof. intros s Hs. exact Hs. Qed.

Lemma preserves_raise {A} I e : preserves I (@raise St A e).
Proof. intros s Hs. exact Hs. Qed.

Lemma preserves_get I : preserves I get.
Proof. intros s Hs. exact Hs. Qed.

Lemma preserves_bind {A B} I (m : M St A) (k : A -> M St B) :
  preserves I m -> (forall a, preserves I (k a)) -> preserves I (bind m k).
Proof.
  intros Hm Hk s Hs. unfold bind. specialize (Hm s Hs).
  destruct (m s); simpl in *; auto. apply Hk. assumption.
Qed.

Lemma preserves_when I c (m : M St unit) :
  preserves I m -> preserves I (when c m).
Proof. destruct c; simpl; auto using preserves_ret. Qed.

Lemma preserves_modify I f :
  (forall s, I s -> I (f s)) -> preserves I (modify f).
Proof. intros Hf s Hs. simpl. auto. Qed.


Lemma preserves_on_world I f : about_self I -> preserves I (modify (on_world f)).
Proof. intros HI. apply preserves_modify. intros s. apply HI. reflexivity. Qed.

Lemma preserves_emit I e : about_self I -> preserves I (emit e).
Proof. apply preserves_on_world. Qed.

(** Follows the structure of an operation, closing the leaves with the
    lemmas above and with the hypotheses at hand. *)
Ltac preserves_tac :=
  repeat first
    [ assumption
    | solve [auto 2]
    | apply preserves_bind; [|intros ?]
    | apply preserves_when
    | apply preserves_ret
    | apply preserves_raise
    | apply preserves_get
    | apply preserves_emit; assumption
    | apply preserves_on_world; assumption
    | match goal with
      | |- preserves _ (if ?c then _ else _) => destruct c
      | |- preserves _ (match ?c with Some _ => _ | None => _ end) => destruct c
      end ].

(** Operations that only talk to the engine keep every property of the
    object. *)
Section Preservation.
Variable I : St -> Prop.
Hypothesis I_self : about_self I.

Lemma preserves_is_playing : preserves I is_playing.
Proof using I_self. unfold is_playing. preserves_tac. Qed.

Lemma preserves_is_stopped : preserves I is_stopped.
Proof using I_self. unfold is_stopped. preserves_tac. Qed.

Lemma preserves_reset soft : preserves I (reset soft).
Proof using I_self.
  unfold reset, add_timeline_callback, timeline_callback_exists. preserves_tac.
Qed.

Lemma preserves_set_setting name value : preserves I (set_setting name value).
Proof using I_self. unfold set_setting. preserves_tac. Qed.

Lemma preserves_get_version : preserves I get_version.
Proof using I_self.
  unfold get_version, getitem, int_. preserves_tac.
Qed.

Lemma preserves_set_additional_physx_params : preserves I _set_additional_physx_params.
Proof using I_self.
  unfold _set_additional_physx_params.
  apply preserves_bind; [apply preserves_get|intros s].
  destruct (negb _); [apply preserves_raise|].
  destruct (gravity_decomposition _) as [[[? ?] ?] ?].
  pose proof preserves_get_version. preserves_tac.
Qed.

(** Given that [render] keeps the property, so does the polling loop and
    the whole of [step]. *)
Hypothesis I_render : forall mode, preserves I (render mode).

Lemma preserves_poll fuel : preserves I (poll fuel).
Proof using I_self I_render.
  induction fuel as [|fuel IH]; simpl.
  - intros s Hs. exact Hs.
  - pose proof preserves_is_playing. pose proof preserves_is_stopped.
    preserves_tac.
Qed.

Lemma preserves_step render_ fuel : preserves I (step render_ fuel).
Proof using I_self I_render.
  unfold step. pose proof preserves_is_playing. pose proof (preserves_poll fuel).
  preserves_tac.
Qed.
End Preservation.


(** The invariant of the throttle. *)
Lemma throttle_inv_about_self : about_self throttle_inv.
Proof. intros s s' E. unfold throttle_inv. now rewrite E. Qed.

Lemma throttle_ok_gui o :
  throttle_ok o = true -> render_mode o <> HEADLESS ->
  exists c, _render_throttle_counter o = Some c /\
            _render_throttle_period o = Some 5 /\ 0 <= c < 5.
Proof.
  unfold throttle_ok. intros H Hm.
  destruct (render_mode o); try congruence;
    destruct (_render_throttle_counter o) as [c|]; try discriminate;
    destruct (_render_throttle_period o) as [p|]; try discriminate;
    exists c; (assert (p = 5) as -> by lia); repeat split; lia.
Qed.

Lemma throttle_ok_intro o c :
  _render_throttle_counter o = Some c -> _render_throttle_period o = Some 5 ->
  0 <= c < 5 -> throttle_ok o = true.
Proof.
  unfold throttle_ok. intros -> -> Hc.
  assert ((0 <=? c) && (c <? 5) && (5 =? 5) = true) by lia.
  destruct (render_mode o); auto.
Qed.

Lemma preserves_throttle_set_render_mode mode :
  preserves throttle_inv (set_render_mode mode).
Proof.
  intros s Hs. unfold throttle_inv in *.
  destruct (RenderMode_eqb_spec (render_mode (self s)) HEADLESS) as [E|E].
  { now rewrite set_render_mode_headless. }
  destruct (throttle_ok_gui _ Hs E) as (c & Hc & Hp & Hr).
  unfold set_render_mode, assign_updates_enabled, assign_visible,
    assign_render_throttle_counter.
  unfold_m.
  repeat (step_if; simpl; try assumption);
    solve [ eapply throttle_ok_intro; simpl; eauto; lia ].
Qed.

Lemma preserves_throttle_render mode : preserves throttle_inv (render mode).
Proof.
  unfold render. apply preserves_bind.
  { apply preserves_when, preserves_throttle_set_render_mode. }
  intros _ s Hs. unfold throttle_inv in *.
  unfold bind at 1. unfold get at 1.
  destruct (RenderMode_eqb_spec (render_mode (self s)) NO_RENDERING) as [E|E].
  - destruct (throttle_ok_gui _ Hs) as (c & Hc & Hp & Hr); [congruence|].
    unfold read_render_throttle_counter, read_render_throttle_period,
      assign_render_throttle_counter, py_mod.
    unfold_m. simpl. rewrite Hc. simpl. rewrite Hp. simpl.
    destruct (Z.eqb_spec ((c + 1) mod 5) 0) as [E0|E0]; simpl.
    + eapply throttle_ok_intro; simpl; eauto; lia.
    + eapply throttle_ok_intro; simpl; eauto.
      destruct (Z.eq_dec (c + 1) 5) as [E5|]; [|lia].
      rewrite E5 in E0. now contradiction E0.
  - destruct (_fabric_iface (self s)); exact Hs.
Qed.

Lemma preserves_throttle_load_fabric_interface :
  preserves throttle_inv _load_fabric_interface.
Proof.
  unfold _load_fabric_interface.
  pose proof (preserves_get_version _ throttle_inv_about_self).
  preserves_tac; apply preserves_modify; intros s Hs; exact Hs.
Qed.

Lemma preserves_throttle_call c : preserves throttle_inv (call c).
Proof.
  pose proof throttle_inv_about_self as HI.
  destruct c; simpl.
  - apply preserves_throttle_set_render_mode.
  - apply preserves_throttle_render.
  - apply preserves_step; auto using preserves_throttle_render.
  - apply preserves_reset; auto.
  - unfold reset_async. preserves_tac.
  - apply preserves_set_setting; auto.
  - unfold _init_stage.
    pose proof (preserves_set_additional_physx_params _ HI).
    pose proof preserves_throttle_load_fabric_interface.
    preserves_tac.
  - unfold _initialize_stage_async.
    pose proof (preserves_set_additional_physx_params _ HI).
    pose proof preserves_throttle_load_fabric_interface.
    preserves_tac.
Qed.

(** Construction establishes the invariant; on the GUI branch the counter
    starts at 0 and the period is 5. *)
Lemma init_throttle_ok default_cfg to_dict cfg w o w' :
  __init__ default_cfg to_dict cfg w = Ok o w' ->
  throttle_ok o = true /\
  (_is_headless o = false ->
   _render_throttle_counter o = Some 0 /\ _render_throttle_period o = Some 5).
Proof.
  unfold __init__, flatten, float_of_Z, settings_get, set_bool.
  unfold_m. intros H.
  repeat (step_if; simpl in *; try discriminate);
    try match type of H with context [match ?p with PDict _ => _ | _ => _ end] =>
      destruct p; simpl in H; try discriminate end;
    inversion H; subst; simpl; split; try reflexivity; try discriminate; auto.
Qed.

Lemma reachable_throttle_ok s : reachable s -> throttle_ok (self s) = true.
Proof.
  induction 1 as [d t c w o w' H|c s _ IH].
  - simpl. eapply init_throttle_ok; eauto.
  - apply preserves_throttle_call. exact IH.
Qed.

(** The only way into NO_RENDERING is the branch that resets the counter. *)
Lemma set_render_mode_enters_no_rendering mode s s' :
  render_mode (self s) <> NO_RENDERING ->
  set_render_mode mode s = Ok tt s' ->
  render_mode (self s') = NO_RENDERING ->
  _render_throttle_counter (self s') = Some 0 /\
  _render_throttle_period (self s') = _render_throttle_period (self s).
Proof.
  unfold set_render_mode, assign_updates_enabled, assign_visible,
    assign_render_throttle_counter.
  unfold_m. intros Hm H Hm'.
  repeat (step_if; simpl in *; try discriminate);
    inversion H; subst; simpl in *; try congruence; auto.
Qed.

(** C3. In every state the adapter can reach, when the render mode is
    NO_RENDERING the throttle period is 5 and the counter is below it; any
    five consecutive calls of [render()] delegate exactly one render to the
    base class and nothing else, and leave the object as it was; the call
    that makes the counter reach the period is the one that renders, and
    the counter is 0 after it, while any other call only increments the
    counter; and a call of [set_render_mode] that moves the adapter into
    NO_RENDERING leaves the counter at 0. *)
Theorem render_throttled_once_per_period (s : St) :
  reachable s ->
  (render_mode (self s) = NO_RENDERING ->
   exists c,
     _render_throttle_counter (self s) = Some c /\
     _render_throttle_period (self s) = Some 5 /\
     0 <= c < 5 /\
     (exists s', render_times 5 s = Ok tt s' /\
                 trace s' = trace s ++ [BaseRender] /\
                 self s' = self s) /\
     (exists s1, render VNone s = Ok tt s1 /\
                 if c + 1 =? 5
                 then trace s1 = trace s ++ [BaseRender] /\
                      _render_throttle_counter (self s1) = Some 0
                 else trace s1 = trace s /\
                      _render_throttle_counter (self s1) = Some (c + 1))) /\
  (forall mode s',
     render_mode (self s) <> NO_RENDERING ->
     set_render_mode mode s = Ok tt s' ->
     render_mode (self s') = NO_RENDERING ->
     _render_throttle_counter (self s') = Some 0 /\
     _render_throttle_period (self s') = Some 5).
Proof.
  intros Hreach. pose proof (reachable_throttle_ok s Hreach) as Hok. split.
  - intros Hm.
    destruct (throttle_ok_gui _ Hok) as (c & Hc & Hp & Hr); [congruence|].
    exists c. repeat split; try assumption; try lia.
    + eexists. split; [apply (render_times_no_rendering 5 s c 5); assumption|].
      replace ((c + Z.of_nat 5) / 5) with 1
        by (apply Z.div_unique with (r := c); lia).
      replace ((c + Z.of_nat 5) mod 5) with c
        by (apply Z.mod_unique with (q := 1); lia).
      split; [rewrite trace_log_all; reflexivity|].
      simpl. destruct s as [[] ?]; simpl in *; subst; reflexivity.
    + eexists. split; [apply (render_no_rendering s c 5); assumption || lia|].
      destruct (Z.eqb_spec (c + 1) 5) as [E|E].
      * rewrite E. simpl. split; reflexivity.
      * rewrite Z.mod_small by lia.
        destruct (Z.eqb_spec (c + 1) 0); [lia|]. split; reflexivity.
  - intros mode s' Hm H Hm'.
    destruct (set_render_mode_enters_no_rendering mode s s' Hm H Hm') as [H0 Hp].
    split; [assumption|].
    assert (render_mode (self s) <> HEADLESS) as Hh.
    { intros E. rewrite set_render_mode_headless in H by assumption.
      inversion H; subst. congruence. }
    destruct (throttle_ok_gui _ Hok Hh) as (c & _ & Hp5 & _). congruence.
Qed.

Lemma render_throttled_once_per_period_witness :
  exists s', render_times 5 no_rendering_session = Ok tt s' /\
             trace s' = trace no_rendering_session ++ [BaseRender].
Proof.
  destruct (render_throttled_once_per_period no_rendering_session) as [H _].
  - apply reachable_call, gui_session_reachable.
  - destruct (H eq_refl) as (c & _ & _ & _ & (s' & H1 & H2 & _) & _).
    exists s'. split; assumption.
Defined.

(** ** Construction *)

(** C5. Whatever the configuration, given or defaulted, construction on
    an engine without a stage raises [RuntimeError] (the spec's
    PreconditionError), and the engine is exactly as before: no setting
    was written and the base constructor was not called. *)
Theorem construction_requires_stage
    (default_cfg : SimulationCfg) (to_dict : SimulationCfg -> option Dict)
    (cfg : option SimulationCfg) (w : World) :
  w_stage w = None ->
  __init__ default_cfg to_dict cfg w =
    Raise (RuntimeError "The stage has not been created. Did you run the simulator?") w
  /\ w_trace (state_of (__init__ default_cfg to_dict cfg w)) = w_trace w.
Proof.
  intros Hstage. unfold __init__. unfold_m. rewrite Hstage. split; reflexivity.
Qed.

Lemma construction_requires_stage_witness :
  __init__ example_cfg example_to_dict None no_stage_world =
    Raise (RuntimeError "The stage has not been created. Did you run the simulator?")
      no_stage_world
  /\ w_trace (state_of (__init__ example_cfg example_to_dict None no_stage_world)) = [].
Proof.
  exact (construction_requires_stage example_cfg example_to_dict None no_stage_world eq_refl).
Defined.

(** ** Version *)

Example get_version_example :
  get_version gui_session = Ok (2023, 1, 0) gui_session.
Proof. vm_compute; reflexivity. Qed.



(** ** Reset *)

(** One call of [reset]: it returns, the object is untouched, and the
    callback is added exactly when the flag is set and the table does not
    have it yet. *)
Lemma reset_once soft s :
  exists s',
    reset soft s = Ok tt s' /\
    self s' = self s /\
    trace s' = trace s ++ reset_prefix soft ++
      (if shutdown_app_on_stop (cfg (self s)) && negb (shutdown_registered s)
       then [AddTimelineCallback "shutdown_app_on_stop"] else []) /\
    shutdown_registered s' =
      shutdown_app_on_stop (cfg (self s)) || shutdown_registered s.
Proof.
  unfold reset, add_timeline_callback, timeline_callback_exists, reset_prefix,
    shutdown_registered, trace.
  unfold_m.
  destruct (shutdown_app_on_stop (cfg (self s))) eqn:F;
    [destruct (bool_decide ("shutdown_app_on_stop" ∈ w_timeline_callbacks (world s))) eqn:D|];
    destruct soft; simpl; rewrite ?F; simpl; rewrite ?D; simpl;
    eexists; (split; [reflexivity|]); simpl;
    rewrite <- ?app_assoc, ?app_nil_r; repeat split; try assumption;
    apply bool_decide_eq_true; set_solver.
Qed.

(** Counting registrations in a trace. *)
Lemma registrations_app t1 t2 :
  registrations (t1 ++ t2) = (registrations t1 + registrations t2)%nat.
Proof. unfold registrations. now rewrite filter_app, length_app. Qed.

Lemma registrations_reset_prefix soft : registrations (reset_prefix soft) = 0%nat.
Proof. destruct soft; reflexivity. Qed.

(** Any sequence of resets, soft or not: the callback is added by the
    first call that finds the table without it, and by no later one. *)
Lemma resets_register_once softs : forall s,
  shutdown_app_on_stop (cfg (self s)) = true ->
  exists s' t,
    resets softs s = Ok tt s' /\
    self s' = self s /\
    trace s' = trace s ++ t /\
    registrations t =
      (if shutdown_registered s || match softs with [] => true | _ => false end
       then 0 else 1)%nat.
Proof.
  induction softs as [|soft softs IH]; intros s F.
  - exists s, []. simpl. rewrite app_nil_r, orb_true_r. auto.
  - destruct (reset_once soft s) as (s1 & H1 & Hself & Htr & Hreg).
    rewrite F in Htr, Hreg. simpl in Htr, Hreg.
    destruct (IH s1) as (s' & t & H2 & Hself' & Htr' & Hcount); [congruence|].
    rewrite Hreg in Hcount. simpl in Hcount.
    eexists s', _. repeat split.
    + simpl. unfold bind. rewrite H1. exact H2.
    + congruence.
    + rewrite Htr', Htr. rewrite <- !app_assoc. reflexivity.
    + rewrite !registrations_app, registrations_reset_prefix, Hcount.
      rewrite orb_false_r. destruct (shutdown_registered s); reflexivity.
Qed.

(** C6. With the shutdown-on-stop flag set, any number [n] of calls of
    [reset(soft=False)] returns, and the calls together register the
    shutdown callback at most once: once when [n] is positive and the
    callback was not in the table before, and not at all otherwise. *)
Theorem reset_registers_shutdown_once (n : nat) (s : St) :
  shutdown_app_on_stop (cfg (self s)) = true ->
  exists s' t,
    resets (repeat false n) s = Ok tt s' /\
    trace s' = trace s ++ t /\
    (registrations t <= 1)%nat /\
    registrations t = (if shutdown_registered s || (n =? 0)%nat then 0 else 1)%nat.
Proof.
  intros F.
  destruct (resets_register_once (repeat false n) s F) as (s' & t & H & _ & Htr & Hc).
  exists s', t. repeat split; try assumption.
  - rewrite Hc. destruct (_ || _); lia.
  - rewrite Hc. destruct n; reflexivity.
Qed.

Lemma reset_registers_shutdown_once_witness :
  exists s' t,
    resets (repeat false 3) gui_session = Ok tt s' /\
    trace s' = trace gui_session ++ t /\
    (registrations t <= 1)%nat /\
    registrations t = 1%nat.
Proof. exact (reset_registers_shutdown_once 3 gui_session eq_refl). Defined.

Example three_resets :
  trace (state_of (resets [false; false; false] gui_session)) =
  trace gui_session ++
  [ForceLoadPhysicsFromUsd; BaseReset false; AddTimelineCallback "shutdown_app_on_stop";
   ForceLoadPhysicsFromUsd; BaseReset false;
   ForceLoadPhysicsFromUsd; BaseReset false].
Proof. vm_compute; reflexivity. Qed.

(** ** Stepping *)

(** [after] is a preorder, and each primitive moves forward in it. *)
Lemma after_refl P s : after P s s.
Proof. repeat split; auto. exists []. now rewrite app_nil_r. Qed.

Lemma after_trans P s1 s2 s3 : after P s1 s2 -> after P s2 s3 -> after P s1 s3.
Proof.
  intros (Ht & Hc & t & Htr & HP) (Ht' & Hc' & t' & Htr' & HP').
  repeat split; [congruence|lia|].
  exists (t ++ t'). rewrite Htr', Htr, <- app_assoc, forallb_app, HP, HP'. auto.
Qed.

Lemma after_on_self P f s : after P s (on_self f s).
Proof. repeat split; simpl; [lia|]. exists []. now rewrite app_nil_r. Qed.

Lemma after_tick P s : after P s (on_world tick s).
Proof. repeat split; simpl; [lia|]. exists []. now rewrite app_nil_r. Qed.

Lemma after_log P e s : P e = true -> after P s (on_world (log e) s).
Proof.
  intros He. repeat split; simpl; [lia|]. exists [e]. simpl. now rewrite He.
Qed.

Lemma preserves_after_on_self P s0 f : preserves (after P s0) (modify (on_self f)).
Proof. intros s Hs. eapply after_trans; [exact Hs|]. apply after_on_self. Qed.

Lemma preserves_after_emit P s0 e : P e = true -> preserves (after P s0) (emit e).
Proof. intros He s Hs. eapply after_trans; [exact Hs|]. now apply after_log. Qed.

Lemma preserves_after_set_render_mode P s0 mode :
  preserves (after P s0) (set_render_mode mode).
Proof.
  unfold set_render_mode, assign_updates_enabled, assign_visible,
    assign_render_throttle_counter.
  pose proof (preserves_after_on_self P s0).
  preserves_tac.
Qed.

(** [render] delegates nothing but render events. *)
Lemma preserves_after_render s0 mode :
  preserves (after is_render_event s0) (render mode).
Proof.
  unfold render, read_render_throttle_counter, read_render_throttle_period,
    assign_render_throttle_counter, py_mod.
  pose proof (preserves_after_on_self is_render_event s0).
  pose proof (preserves_after_set_render_mode is_render_event s0 mode).
  pose proof (preserves_after_emit is_render_event s0 BaseRender eq_refl).
  assert (forall i, preserves (after is_render_event s0) (emit (FabricUpdate i 0 0)))
    by (intros i; now apply preserves_after_emit).
  preserves_tac.
Qed.

Lemma render_after mode s : after is_render_event s (state_of (render mode s)).
Proof. apply preserves_after_render, after_refl. Qed.

(** The two queries, as equations. *)
Lemma is_playing_eq s :
  is_playing s =
  Ok match timeline_now (world s) with PLAYING => true | _ => false end
     (on_world tick s).
Proof. reflexivity. Qed.

Lemma is_stopped_eq s :
  is_stopped s =
  Ok match timeline_now (world s) with STOPPED => true | _ => false end
     (on_world tick s).
Proof. reflexivity. Qed.

(** The loop is left only after a query saw the timeline playing or
    stopped, and until then only [render] was called. *)
Lemma poll_returns fuel : forall s s',
  poll fuel s = Ok tt s' ->
  after is_render_event s s' /\
  exists k, (clock s <= k < clock s')%nat /\
            (timeline_at s k = PLAYING \/ timeline_at s k = STOPPED).
Proof.
  induction fuel as [|fuel IH]; intros s s' H; [discriminate H|].
  cbn [poll] in H. unfold bind at 1 in H. rewrite is_playing_eq in H.
  destruct (match timeline_now (world s) with PLAYING => true | _ => false end) eqn:Hplaying.
  - (* the loop condition fails *)
    inversion H; subst. split; [apply after_tick|].
    exists (clock s). unfold clock, timeline_at, timeline_now in *. simpl.
    split; [lia|]. left. destruct (w_timeline (world s) (w_clock (world s))); congruence.
  - unfold bind at 1 in H.
    pose proof (render_after VNone (on_world tick s)) as Hr.
    destruct (render VNone (on_world tick s)) as [[] s1|e s1|s1]; try discriminate H.
    simpl in Hr. unfold bind at 1 in H. rewrite is_stopped_eq in H.
    pose proof (after_trans _ _ _ _ (after_tick is_render_event s) Hr) as Hs1.
    destruct (match timeline_now (world s1) with STOPPED => true | _ => false end) eqn:Hstopped.
    + (* break *)
      inversion H; subst. split; [eapply after_trans; [exact Hs1|apply after_tick]|].
      destruct Hs1 as (Ht1 & Hc1 & _).
      exists (clock s1). unfold clock, timeline_at, timeline_now in *. simpl in *.
      rewrite <- Ht1. split; [lia|]. right.
      destruct (w_timeline (world s1) (w_clock (world s1))); congruence.
    + (* next iteration *)
      destruct (IH _ _ H) as (Ha & k & Hk & Hobs).
      split; [eapply after_trans; [exact Hs1|]; eapply after_trans; [apply after_tick|exact Ha]|].
      destruct Hs1 as (Ht1 & Hc1 & _).
      exists k. unfold clock, timeline_at in *. simpl in *.
      rewrite Ht1 in Hobs. split; [lia|exact Hobs].
Qed.

(** While the timeline stays paused the loop does not end. *)
Lemma poll_blocked fuel : forall s,
  (forall k, (clock s <= k)%nat -> timeline_at s k = PAUSED) ->
  returns (poll fuel s) = false.
Proof.
  induction fuel as [|fuel IH]; intros s Hpaused; [reflexivity|].
  cbn [poll]. unfold bind at 1. rewrite is_playing_eq.
  unfold timeline_now. fold (clock s). fold (timeline_at s (clock s)).
  rewrite (Hpaused (clock s)) by lia.
  unfold bind at 1.
  pose proof (render_after VNone (on_world tick s)) as Hr.
  destruct (render VNone (on_world tick s)) as [[] s1|e s1|s1]; try reflexivity.
  simpl in Hr. destruct Hr as (Ht1 & Hc1 & _). simpl in Ht1, Hc1.
  unfold bind at 1. rewrite is_stopped_eq.
  assert (forall k, (clock s1 <= k)%nat -> timeline_at s1 k = PAUSED) as Hpaused1.
  { intros k Hk. unfold timeline_at, clock in *. rewrite Ht1. apply Hpaused. lia. }
  unfold timeline_now. fold (clock s1). fold (timeline_at s1 (clock s1)).
  rewrite (Hpaused1 (clock s1)) by lia.
  apply IH. intros k Hk. apply Hpaused1. unfold clock in *. simpl in Hk. lia.
Qed.

(** In a reachable state [render()] returns. *)
Lemma render_returns s :
  throttle_ok (self s) = true -> returns (render VNone s) = true.
Proof.
  intros Hok.
  destruct (RenderMode_eqb_spec (render_mode (self s)) NO_RENDERING) as [E|E].
  - destruct (throttle_ok_gui _ Hok) as (c & Hc & Hp & Hr); [congruence|].
    rewrite (render_no_rendering s c 5) by (assumption || lia). reflexivity.
  - unfold render. unfold_m. simpl.
    destruct (RenderMode_eqb_spec (render_mode (self s)) NO_RENDERING); [contradiction|].
    destruct (_fabric_iface (self s)); reflexivity.
Qed.

(** Once the timeline plays for good, from tick [K] on, the loop ends
    within [K - clock s + 1] iterations. *)
Lemma poll_ends fuel : forall s K,
  throttle_ok (self s) = true ->
  (forall k, (K <= k)%nat -> timeline_at s k = PLAYING) ->
  (K - clock s < fuel)%nat ->
  returns (poll fuel s) = true.
Proof.
  induction fuel as [|fuel IH]; intros s K Hok Hplay Hfuel; [lia|].
  cbn [poll]. unfold bind at 1. rewrite is_playing_eq.
  destruct (match timeline_now (world s) with PLAYING => true | _ => false end) eqn:Hnow;
    [reflexivity|].
  assert (clock s < K)%nat as Hlt.
  { destruct (Nat.lt_ge_cases (clock s) K) as [|Hge]; [assumption|].
    specialize (Hplay _ Hge). unfold timeline_at, clock, timeline_now in *.
    rewrite Hplay in Hnow. discriminate Hnow. }
  unfold bind at 1.
  pose proof (render_after VNone (on_world tick s)) as (Ht1 & Hc1 & _).
  pose proof (preserves_throttle_render VNone (on_world tick s) Hok) as Hok1.
  pose proof (render_returns (on_world tick s) Hok) as Hret.
  destruct (render VNone (on_world tick s)) as [[] s1|e s1|s1]; try discriminate Hret.
  simpl in Ht1, Hc1, Hok1. unfold bind at 1. rewrite is_stopped_eq.
  destruct (match timeline_now (world s1) with STOPPED => true | _ => false end);
    [reflexivity|].
  apply (IH _ K).
  - exact Hok1.
  - intros k Hk. unfold timeline_at in *. simpl. rewrite Ht1. apply Hplay, Hk.
  - unfold clock in *. simpl. lia.
Qed.

(** X18. [step] returns whenever the timeline is playing for good from
    some tick on: the blocking is a wait, not a deadlock. *)
Lemma step_returns_once_playing render_ s K :
  throttle_ok (self s) = true ->
  (forall k, (K <= k)%nat -> timeline_at s k = PLAYING) ->
  returns (step render_ (S (K - clock s)) s) = true.
Proof.
  intros Hok Hplay. unfold step. unfold bind at 1. rewrite is_playing_eq.
  destruct (match timeline_now (world s) with PLAYING => true | _ => false end);
    [reflexivity|].
  cbn [negb when]. unfold bind at 1. unfold bind at 1.
  pose proof (poll_ends (S (K - clock s)) (on_world tick s) K Hok) as Hends.
  destruct (poll (S (K - clock s)) (on_world tick s)); try reflexivity;
    discriminate Hends; (exact Hplay || (unfold clock; simpl; lia)).
Qed.

(** C1 as stated fails: between the renders of the polling phase and the
    delegated physics step the adapter calls [app.update()], which is not
    a render call. *)
Lemma step_updates_app_before_physics :
  timeline_now (world paused_session) <> PLAYING /\
  returns (step true 10 paused_session) = true /\
  ~ (exists t,
       trace (state_of (step true 10 paused_session)) =
         trace paused_session ++ t ++ [BaseStep true] /\
       forallb is_render_event t = true).
Proof.
  split; [vm_compute; discriminate|].
  split; [vm_compute; reflexivity|].
  intros (t & Htr & Ht).
  assert (trace (state_of (step true 10 paused_session)) =
          trace paused_session ++
            [BaseRender; BaseRender; BaseRender; AppUpdate] ++ [BaseStep true]) as E
    by (vm_compute; reflexivity).
  rewrite E in Htr. apply app_inv_head in Htr. apply app_inj_tail in Htr as [<- _].
  discriminate Ht.
Qed.

(** C1, amended. A call of [step] made while the timeline is not playing
    returns only after a query of the timeline, made during the call, saw
    it playing or stopped; what it delegated up to then are render calls
    only, after which come exactly one [app.update()] and the physics step
    of the base class.  If the timeline stays paused, the call does not
    return, however long it is followed. *)
Theorem step_blocks_until_playing_or_stopped (render_ : bool) (fuel : nat) (s : St) :
  timeline_now (world s) <> PLAYING ->
  (forall s',
     step render_ fuel s = Ok tt s' ->
     exists t k,
       trace s' = trace s ++ t ++ [AppUpdate; BaseStep render_] /\
       forallb is_render_event t = true /\
       (clock s < k < clock s')%nat /\
       (timeline_at s k = PLAYING \/ timeline_at s k = STOPPED)) /\
  ((forall k, (clock s <= k)%nat -> timeline_at s k = PAUSED) ->
   returns (step render_ fuel s) = false).
Proof.
  intros Hnow.
  assert (step render_ fuel s =
          (poll fuel ;; emit AppUpdate ;; emit (BaseStep render_)) (on_world tick s)) as Hstep.
  { unfold step. unfold bind at 1. rewrite is_playing_eq.
    destruct (timeline_now (world s)); try congruence; simpl;
      unfold bind; destruct (poll fuel (on_world tick s)); reflexivity. }
  rewrite Hstep. split.
  - intros s' H. unfold bind at 1 in H.
    destruct (poll fuel (on_world tick s)) as [[] s1|e s1|s1] eqn:Hpoll; try discriminate H.
    destruct (poll_returns _ _ _ Hpoll) as ((Ht1 & Hc1 & t & Htr & HP) & k & Hk & Hobs).
    inversion H; subst. exists t, k. unfold clock, timeline_at, trace in *. simpl in *.
    rewrite Htr, <- !app_assoc. repeat split; try assumption; lia.
  - intros Hpaused. unfold bind at 1.
    pose proof (poll_blocked fuel (on_world tick s)) as Hb.
    destruct (poll fuel (on_world tick s)); try reflexivity.
    discriminate Hb. intros k Hk. apply (Hpaused k). unfold clock in *. simpl in Hk. lia.
Qed.

Lemma step_blocks_until_playing_or_stopped_witness :
  (exists t k,
     trace (state_of (step true 10 paused_session)) =
       trace paused_session ++ t ++ [AppUpdate; BaseStep true] /\
     forallb is_render_event t = true /\
     (clock paused_session < k < clock (state_of (step true 10 paused_session)))%nat /\
     (timeline_at paused_session k = PLAYING \/ timeline_at paused_session k = STOPPED)) /\
  returns (step true 10 never_played_session) = false.
Proof.
  split.
  - apply (step_blocks_until_playing_or_stopped true 10 paused_session).
    + vm_compute; discriminate.
    + vm_compute; reflexivity.
  - apply (step_blocks_until_playing_or_stopped true 10 never_played_session).
    + vm_compute; discriminate.
    + intros k _. reflexivity.
Defined.

(** ** Gravity *)

Example default_gravity_decomposition :
  gravity_decomposition (gravity example_cfg) = ((0, 0, -1), 0x1.39eb851eb851fp+3)%float.
Proof. vm_compute; reflexivity. Qed.





(** The zero vector: the norm is 0 and each quotient is 0/0. *)
Lemma gravity_decomposition_zero :
  gravity_decomposition (0, 0, 0)%float = ((nan, nan, nan), 0)%float.
Proof. vm_compute; reflexivity. Qed.

(** [get_version] reads the object only. *)
Lemma get_version_self s s2 :
  self s2 = self s ->
  get_version s2 =
  match get_version s with
  | Ok v _ => Ok v s2
  | Raise e _ => Raise e s2
  | Blocked _ => Blocked s2
  end.
Proof.
  intros E. unfold get_version, getitem, int_. unfold_m. rewrite E.
  repeat (step_if; simpl); reflexivity.
Qed.

(** C10. With the zero vector as gravity, [_set_additional_physx_params]
    runs the decomposition without any test of the norm: the quotient by
    the zero norm is evaluated (each component is 0/0, a NaN) and handed to
    the physics scene together with the magnitude 0, and the call returns
    whenever the scene API is there and the version can be read, exactly as
    for any other gravity. *)
Theorem zero_gravity_is_not_guarded (s : St) (v : Z * Z * Z) :
  gravity (cfg (self s)) = (0, 0, 0)%float ->
  w_physx_scene_api (world s) = true ->
  get_version s = Ok v s ->
  gravity_decomposition (gravity (cfg (self s))) = ((nan, nan, nan), 0)%float /\
  exists s' rest,
    _set_additional_physx_params s = Ok tt s' /\
    trace s' =
      trace s ++
      [EnableCcd (enable_ccd (physx (cfg (self s))));
       CreateGpuCollisionStackSizeAttr (gpu_collision_stack_size (physx (cfg (self s))));
       CreateGravityDirectionAttr nan nan nan;
       CreateGravityMagnitudeAttr 0] ++ rest.
Proof.
  intros Hg Hapi Hv. rewrite Hg. split; [apply gravity_decomposition_zero|].
  unfold _set_additional_physx_params. unfold_m. rewrite Hapi, Hg. cbn [negb].
  rewrite gravity_decomposition_zero.
  match goal with |- context [get_version ?s2] =>
    rewrite (get_version_self s s2) by reflexivity end.
  rewrite Hv. unfold trace.
  destruct (v.1.1 =? 2022); simpl; eexists _, _; (split; [reflexivity|]); simpl;
    rewrite <- !app_assoc; simpl; reflexivity.
Qed.

Lemma zero_gravity_is_not_guarded_witness :
  exists s' rest,
    _set_additional_physx_params zero_gravity_session = Ok tt s' /\
    trace s' =
      trace zero_gravity_session ++
      [EnableCcd false; CreateGpuCollisionStackSizeAttr 67108864;
       CreateGravityDirectionAttr nan nan nan;
       CreateGravityMagnitudeAttr 0] ++ rest.
Proof.
  apply (zero_gravity_is_not_guarded zero_gravity_session (2023, 1, 0));
    vm_compute; reflexivity.
Defined.

(** ** More on the render-mode state machine *)

(** X1. In a GUI session whose viewport and window exist, a call of
    [set_render_mode] with one of the three supported members, different
    from the current mode, returns; afterwards the mode is the target, the
    viewport updates and the window is visible exactly when the target is
    FULL_RENDERING, the throttle counter is 0 if the target is
    NO_RENDERING and untouched otherwise, and the engine is as before. *)
Theorem set_render_mode_switches (target : RenderMode) (s : St) (vc : ViewportAPI) (vw : Window) :
  render_mode (self s) <> HEADLESS ->
  target <> HEADLESS ->
  target <> render_mode (self s) ->
  _viewport_context (self s) = Some vc ->
  _viewport_window (self s) = Some vw ->
  exists s',
    set_render_mode (VMode target) s = Ok tt s' /\
    render_mode (self s') = target /\
    _viewport_context (self s') = Some {| updates_enabled := shown target |} /\
    _viewport_window (self s') = Some {| visible := shown target |} /\
    _render_throttle_counter (self s') =
      (if RenderMode_eqb target NO_RENDERING then Some 0
       else _render_throttle_counter (self s)) /\
    world s' = world s.
Proof.
  intros Hgui Ht Hne Hvc Hvw.
  unfold set_render_mode, assign_updates_enabled, assign_visible,
    assign_render_throttle_counter.
  unfold_m. cbn [is_mode].
  destruct (RenderMode_eqb_spec target (render_mode (self s))); [contradiction|].
  destruct (RenderMode_eqb_spec (render_mode (self s)) HEADLESS); [contradiction|].
  cbn [negb andb].
  destruct target; try contradiction; simpl; rewrite Hvc; simpl; rewrite Hvw; simpl;
    eexists; repeat split.
Qed.

Lemma set_render_mode_switches_witness :
  exists s',
    set_render_mode (VMode PARTIAL_RENDERING) gui_session = Ok tt s' /\
    render_mode (self s') = PARTIAL_RENDERING /\
    _viewport_context (self s') = Some {| updates_enabled := false |} /\
    _viewport_window (self s') = Some {| visible := false |}.
Proof.
  destruct (set_render_mode_switches PARTIAL_RENDERING gui_session
              {| updates_enabled := true |} {| visible := true |})
    as (s' & H & Hm & Hc & Hw & _); try discriminate; try reflexivity.
  exists s'. auto.
Defined.

(** X2. [set_render_mode] is idempotent: a call that returned can be
    repeated with the same argument and changes nothing more. *)
Theorem set_render_mode_idempotent (mode : PyVal) (s s' : St) :
  set_render_mode mode s = Ok tt s' ->
  set_render_mode mode s' = Ok tt s'.
Proof.
  intros H.
  assert (render_mode (self s') = HEADLESS \/ is_mode mode (render_mode (self s')) = true) as Hs'.
  { revert H.
    unfold set_render_mode, assign_updates_enabled, assign_visible,
      assign_render_throttle_counter.
    unfold_m. intros H.
    repeat (step_if; simpl in *; try discriminate);
      inversion H; subst; simpl; auto.
    apply andb_false_iff in Heqb as [E|E].
    - right. now apply negb_false_iff in E.
    - left. apply negb_false_iff in E.
      now destruct (RenderMode_eqb_spec (render_mode (self s')) HEADLESS). }
  unfold set_render_mode. unfold_m. destruct Hs' as [E|E].
  - rewrite E. simpl. now rewrite andb_false_r.
  - rewrite E. reflexivity.
Qed.

Lemma set_render_mode_idempotent_witness :
  set_render_mode (VMode NO_RENDERING)
    (state_of (set_render_mode (VMode NO_RENDERING) gui_session))
  = Ok tt (state_of (set_render_mode (VMode NO_RENDERING) gui_session)).
Proof.
  apply (set_render_mode_idempotent (VMode NO_RENDERING) gui_session).
  vm_compute; reflexivity.
Defined.

(** X3. [set_render_mode] is not atomic when the window is missing: in a
    GUI session with a viewport but no "Viewport" window, a call with a
    supported target different from the current mode raises
    [AttributeError] after the viewport's [updates_enabled] was already
    written; the render mode keeps its old value. *)
Theorem set_render_mode_without_window (target : RenderMode) (s : St) (vc : ViewportAPI) :
  render_mode (self s) <> HEADLESS ->
  target <> HEADLESS ->
  target <> render_mode (self s) ->
  _viewport_context (self s) = Some vc ->
  _viewport_window (self s) = None ->
  set_render_mode (VMode target) s =
    Raise (AttributeError "visible")
      (on_self (with_viewport_context (Some {| updates_enabled := shown target |})) s).
Proof.
  intros Hgui Ht Hne Hvc Hvw.
  unfold set_render_mode, assign_updates_enabled, assign_visible,
    assign_render_throttle_counter.
  unfold_m. cbn [is_mode].
  destruct (RenderMode_eqb_spec target (render_mode (self s))); [contradiction|].
  destruct (RenderMode_eqb_spec (render_mode (self s)) HEADLESS); [contradiction|].
  cbn [negb andb].
  destruct target; try contradiction; simpl; rewrite Hvc; simpl; rewrite Hvw; reflexivity.
Qed.

Lemma set_render_mode_without_window_witness :
  exists s',
    set_render_mode (VMode PARTIAL_RENDERING) windowless_session =
      Raise (AttributeError "visible") s' /\
    render_mode (self s') = FULL_RENDERING /\
    _viewport_context (self s') = Some {| updates_enabled := false |}.
Proof.
  eexists. split.
  - apply (set_render_mode_without_window PARTIAL_RENDERING windowless_session
             {| updates_enabled := true |}); (discriminate || reflexivity).
  - split; reflexivity.
Defined.

(** ** More on rendering *)

(** Outside NO_RENDERING [render()] is the flush and the base render. *)
Lemma render_outside_no_rendering s :
  render_mode (self s) <> NO_RENDERING ->
  render VNone s =
    Ok tt (on_world (log_all (fabric_flush (self s) ++ [BaseRender])) s).
Proof.
  intros Hm. unfold render, fabric_flush. unfold_m. simpl.
  destruct (RenderMode_eqb_spec (render_mode (self s)) NO_RENDERING); [contradiction|].
  destruct (_fabric_iface (self s)); reflexivity.
Qed.

(** X4. Outside NO_RENDERING a call of [render()] always renders: it
    flushes the data bridge if one was loaded, then delegates one render to
    the base class, and leaves the object, throttle counter included, as it
    was. *)
Theorem render_without_throttle (s : St) :
  render_mode (self s) <> NO_RENDERING ->
  render VNone s =
    Ok tt (on_world (log_all (fabric_flush (self s) ++ [BaseRender])) s).
Proof. apply render_outside_no_rendering. Qed.

Lemma render_without_throttle_witness :
  render VNone gui_session = Ok tt (on_world (log_all [BaseRender]) gui_session).
Proof. apply (render_without_throttle gui_session). discriminate. Defined.

(** X5. In a headless session the argument of [render] is ignored: for
    every [mode], member of the enum or not, the call returns after one
    base render (and the flush of the data bridge), and the object is
    unchanged. *)
Theorem render_ignores_mode_in_headless (mode : PyVal) (s : St) :
  render_mode (self s) = HEADLESS ->
  render mode s =
    Ok tt (on_world (log_all (fabric_flush (self s) ++ [BaseRender])) s).
Proof.
  intros Hm. unfold render. unfold bind at 1.
  assert (when (negb match mode with VNone => true | _ => false end)
            (set_render_mode mode) s = Ok tt s) as ->.
  { destruct mode; try reflexivity; apply set_render_mode_headless, Hm. }
  unfold fabric_flush. unfold_m. rewrite Hm. simpl.
  destruct (_fabric_iface (self s)); reflexivity.
Qed.

Lemma render_ignores_mode_in_headless_witness :
  render (VStr "wireframe") headless_session =
    Ok tt (on_world (log_all [BaseRender]) headless_session).
Proof.
  apply (render_ignores_mode_in_headless (VStr "wireframe") headless_session).
  reflexivity.
Defined.

(** X6. In a GUI session [render(mode)] with an argument that is neither
    [None] nor one of the three supported members raises [ValueError]
    before anything is rendered or written. *)
Theorem render_rejects_unsupported_mode (mode : PyVal) (s : St) :
  render_mode (self s) <> HEADLESS ->
  supported mode = false ->
  mode <> VNone ->
  render mode s = Raise (ValueError "Unsupported rendering mode") s.
Proof.
  intros Hm Hx Hn. unfold render. unfold bind at 1.
  assert (when (negb match mode with VNone => true | _ => false end)
            (set_render_mode mode) s = set_render_mode mode s) as ->
    by (destruct mode; try reflexivity; contradiction).
  now rewrite set_render_mode_unsupported.
Qed.

Lemma render_rejects_unsupported_mode_witness :
  render (VMode HEADLESS) gui_session =
    Raise (ValueError "Unsupported rendering mode") gui_session.
Proof.
  apply (render_rejects_unsupported_mode (VMode HEADLESS) gui_session);
    (discriminate || reflexivity).
Defined.

(** ** Invariants of the adapter *)

Lemma preserves_on_self I f :
  (forall s, I s -> I (on_self f s)) -> preserves I (modify (on_self f)).
Proof. intros Hf. apply preserves_modify, Hf. Qed.

Lemma shape_inv_about_self : about_self shape_inv.
Proof. intros s s' E. unfold shape_inv. now rewrite E. Qed.

Lemma preserves_shape_set_render_mode mode :
  preserves shape_inv (set_render_mode mode).
Proof.
  intros s Hs. unfold shape_inv, shape_ok in *.
  destruct (_is_headless (self s)) eqn:Hh.
  - apply andb_true_iff in Hs as [Hs Hw]. apply andb_true_iff in Hs as [Hm Hc].
    destruct (RenderMode_eqb_spec (render_mode (self s)) HEADLESS) as [E|E];
      [|discriminate Hm].
    rewrite set_render_mode_headless by assumption. simpl.
    rewrite Hh, E, Hc, Hw. reflexivity.
  - apply andb_true_iff in Hs as [Hm Hc].
    apply negb_true_iff in Hm. apply bool_decide_eq_true in Hc.
    assert (_is_headless (self (state_of (set_render_mode mode s))) = false /\
            RenderMode_eqb (render_mode (self (state_of (set_render_mode mode s)))) HEADLESS
              = false /\
            is_Some (_viewport_context (self (state_of (set_render_mode mode s)))))
      as (H1 & H2 & H3).
    { unfold set_render_mode, assign_updates_enabled, assign_visible,
        assign_render_throttle_counter.
      unfold_m.
      repeat (step_if; simpl; try discriminate); auto;
        try (destruct Hc as [? Hc]; congruence). }
    rewrite H1, H2. simpl. now apply bool_decide_eq_true.
Qed.

Lemma preserves_shape_render mode : preserves shape_inv (render mode).
Proof.
  unfold render, read_render_throttle_counter, read_render_throttle_period,
    assign_render_throttle_counter, py_mod.
  pose proof shape_inv_about_self.
  pose proof (preserves_shape_set_render_mode mode).
  assert (forall c, preserves shape_inv
            (modify (on_self (with_render_throttle_counter c))))
    by (intros c; apply preserves_on_self; intros s Hs; exact Hs).
  preserves_tac.
Qed.

Lemma preserves_shape_load_fabric_interface :
  preserves shape_inv _load_fabric_interface.
Proof.
  unfold _load_fabric_interface.
  pose proof (preserves_get_version _ shape_inv_about_self).
  preserves_tac; apply preserves_on_self; intros s Hs; exact Hs.
Qed.

Lemma preserves_shape_call c : preserves shape_inv (call c).
Proof.
  pose proof shape_inv_about_self as HI.
  pose proof (preserves_set_additional_physx_params _ HI).
  pose proof preserves_shape_load_fabric_interface.
  destruct c; simpl.
  - apply preserves_shape_set_render_mode.
  - apply preserves_shape_render.
  - apply preserves_step; auto using preserves_shape_render.
  - apply preserves_reset; auto.
  - unfold reset_async. preserves_tac.
  - apply preserves_set_setting; auto.
  - unfold _init_stage. preserves_tac.
  - unfold _initialize_stage_async. preserves_tac.
Qed.

Lemma init_shape_ok default_cfg to_dict cfg w o w' :
  __init__ default_cfg to_dict cfg w = Ok o w' -> shape_ok o = true.
Proof.
  unfold __init__, flatten, float_of_Z, settings_get, set_bool.
  unfold_m. intros H.
  repeat (step_if; simpl in *; try discriminate);
    try match type of H with context [match ?p with PDict _ => _ | _ => _ end] =>
      destruct p; simpl in H; try discriminate end;
    inversion H; subst; reflexivity.
Qed.

Lemma reachable_shape_ok s : reachable s -> shape_ok (self s) = true.
Proof.
  induction 1 as [d t c w o w' H|c s _ IH].
  - simpl. eapply init_shape_ok; eauto.
  - apply preserves_shape_call. exact IH.
Qed.

(** X7. Headless for good, or never: in every state the adapter can
    reach, the headless flag is set exactly when the render mode is
    HEADLESS; a headless adapter holds neither a viewport nor a window, and
    a GUI adapter always holds its viewport. *)
Theorem headless_iff_render_mode_headless (s : St) :
  reachable s ->
  (_is_headless (self s) = true <-> render_mode (self s) = HEADLESS) /\
  (_is_headless (self s) = true ->
   _viewport_context (self s) = None /\ _viewport_window (self s) = None) /\
  (_is_headless (self s) = false ->
   exists viewport, _viewport_context (self s) = Some viewport).
Proof.
  intros Hreach. pose proof (reachable_shape_ok s Hreach) as Hok.
  unfold shape_ok in Hok.
  destruct (_is_headless (self s));
    destruct (RenderMode_eqb_spec (render_mode (self s)) HEADLESS);
    destruct (_viewport_context (self s)) as [vc|];
    destruct (_viewport_window (self s)) as [vw|];
    try discriminate Hok;
    (repeat split; try congruence; try discriminate; eauto).
Qed.

Lemma headless_iff_render_mode_headless_witness :
  _is_headless (self no_rendering_session) = false /\
  exists viewport, _viewport_context (self no_rendering_session) = Some viewport.
Proof.
  split; [reflexivity|].
  apply (headless_iff_render_mode_headless no_rendering_session).
  - apply reachable_call, gui_session_reachable.
  - reflexivity.
Defined.

Lemma frame_inv_about_self o0 : about_self (frame_inv o0).
Proof. intros s s' E. unfold frame_inv. now rewrite E. Qed.

Lemma preserves_frame_on_self o0 f :
  (forall o, cfg (f o) = cfg o /\ _is_headless (f o) = _is_headless o /\
             _isaacsim_version (f o) = _isaacsim_version o /\
             _render_throttle_period (f o) = _render_throttle_period o) ->
  preserves (frame_inv o0) (modify (on_self f)).
Proof.
  intros Hf. apply preserves_on_self. intros s (H1 & H2 & H3 & H4).
  destruct (Hf (self s)) as (E1 & E2 & E3 & E4).
  unfold frame_inv. simpl. rewrite E1, E2, E3, E4. auto.
Qed.

Lemma preserves_frame_set_render_mode o0 mode :
  preserves (frame_inv o0) (set_render_mode mode).
Proof.
  unfold set_render_mode, assign_updates_enabled, assign_visible,
    assign_render_throttle_counter.
  preserves_tac; apply preserves_frame_on_self; intros o; auto.
Qed.

Lemma preserves_frame_render o0 mode : preserves (frame_inv o0) (render mode).
Proof.
  unfold render, read_render_throttle_counter, read_render_throttle_period,
    assign_render_throttle_counter, py_mod.
  pose proof (frame_inv_about_self o0).
  pose proof (preserves_frame_set_render_mode o0 mode).
  preserves_tac; apply preserves_frame_on_self; intros o; auto.
Qed.

Lemma preserves_frame_load_fabric_interface o0 :
  preserves (frame_inv o0) _load_fabric_interface.
Proof.
  unfold _load_fabric_interface.
  pose proof (preserves_get_version _ (frame_inv_about_self o0)).
  preserves_tac; apply preserves_frame_on_self; intros o; auto.
Qed.

(** X8. No operation rewrites what construction fixed: whatever call is
    made on an adapter, and however it ends, the configuration, the
    headless flag, the raw version and the throttle period are afterwards
    what they were before. *)
Theorem calls_keep_configuration (c : Call) (s : St) :
  cfg (self (state_of (call c s))) = cfg (self s) /\
  _is_headless (self (state_of (call c s))) = _is_headless (self s) /\
  _isaacsim_version (self (state_of (call c s))) = _isaacsim_version (self s) /\
  _render_throttle_period (self (state_of (call c s))) = _render_throttle_period (self s).
Proof.
  assert (preserves (frame_inv (self s)) (call c)) as Hc.
  { pose proof (frame_inv_about_self (self s)) as HI.
    pose proof (preserves_set_additional_physx_params _ HI).
    pose proof (preserves_frame_load_fabric_interface (self s)).
    destruct c; simpl.
    - apply preserves_frame_set_render_mode.
    - apply preserves_frame_render.
    - apply preserves_step; auto using preserves_frame_render.
    - apply preserves_reset; auto.
    - unfold reset_async. preserves_tac.
    - apply preserves_set_setting; auto.
    - unfold _init_stage. preserves_tac.
    - unfold _initialize_stage_async. preserves_tac. }
  apply (Hc s). unfold frame_inv. auto.
Qed.

(** X9. Switching the mode through [render]: in a reachable GUI state
    whose window exists, [render(target)] with a supported target different
    from the current mode returns in the target mode; a switch to
    NO_RENDERING renders nothing on that call and leaves the throttle
    counter at 1, any other switch renders at once. *)
Theorem render_switches_mode (target : RenderMode) (s : St) (vw : Window) :
  reachable s ->
  render_mode (self s) <> HEADLESS ->
  target <> HEADLESS ->
  target <> render_mode (self s) ->
  _viewport_window (self s) = Some vw ->
  exists s',
    render (VMode target) s = Ok tt s' /\
    render_mode (self s') = target /\
    (if RenderMode_eqb target NO_RENDERING
     then trace s' = trace s /\ _render_throttle_counter (self s') = Some 1
     else trace s' = trace s ++ fabric_flush (self s) ++ [BaseRender] /\
          _render_throttle_counter (self s') = _render_throttle_counter (self s)).
Proof.
  intros Hreach Hgui Ht Hne Hvw.
  pose proof (reachable_shape_ok s Hreach) as Hshape.
  pose proof (reachable_throttle_ok s Hreach) as Hthr.
  destruct (throttle_ok_gui _ Hthr Hgui) as (c & Hc & Hp & Hr).
  assert (exists vc, _viewport_context (self s) = Some vc) as (vc & Hvc).
  { unfold shape_ok in Hshape.
    destruct (_is_headless (self s));
      destruct (RenderMode_eqb_spec (render_mode (self s)) HEADLESS);
      destruct (_viewport_context (self s)); try discriminate Hshape;
      try contradiction; eauto. }
  unfold render. unfold bind at 1. cbn [negb when].
  unfold set_render_mode, assign_updates_enabled, assign_visible,
    assign_render_throttle_counter, read_render_throttle_counter,
    read_render_throttle_period, py_mod, fabric_flush.
  unfold_m. cbn [is_mode].
  destruct (RenderMode_eqb_spec target (render_mode (self s))); [contradiction|].
  destruct (RenderMode_eqb_spec (render_mode (self s)) HEADLESS); [contradiction|].
  cbn [negb andb].
  destruct target; try contradiction; simpl; rewrite Hvc; simpl; rewrite Hvw; simpl;
    rewrite ?Hp; simpl.
  - eexists; repeat split.
  - destruct (_fabric_iface (self s)); eexists; repeat split; unfold trace; simpl;
      rewrite <- ?app_assoc; reflexivity.
  - destruct (_fabric_iface (self s)); eexists; repeat split; unfold trace; simpl;
      rewrite <- ?app_assoc; reflexivity.
Qed.

Lemma render_switches_mode_witness :
  exists s',
    render (VMode NO_RENDERING) gui_session = Ok tt s' /\
    render_mode (self s') = NO_RENDERING /\
    trace s' = trace gui_session /\
    _render_throttle_counter (self s') = Some 1.
Proof.
  destruct (render_switches_mode NO_RENDERING gui_session {| visible := true |})
    as (s' & H & Hm & Ht & Hc);
    try discriminate; try reflexivity; try apply gui_session_reachable.
  exists s'. auto.
Defined.

(** ** More on construction *)




(** X11. The settings construction writes are written as soon as the
    stage check has passed, whether construction then succeeds or fails:
    scene-graph instancing and the PhysX dispatcher are on, the two custom
    geometry flags are off, contact processing is disabled if and only if
    the configuration asks for it (and otherwise keeps its value), and no
    other setting is touched. *)
Theorem construction_writes_settings
    (default_cfg : SimulationCfg) (to_dict : SimulationCfg -> option Dict)
    (given : option SimulationCfg) (w : World) (stage : string) :
  w_stage w = Some stage ->
  let c := match given with None => default_cfg | Some c => c end in
  let after := w_settings (state_of (__init__ default_cfg to_dict given w)) in
  after !! "/persistent/omnihydra/useSceneGraphInstancing" = Some (VBool true) /\
  after !! "/physics/physxDispatcher" = Some (VBool true) /\
  after !! "/physics/collisionConeCustomGeometry" = Some (VBool false) /\
  after !! "/physics/collisionCylinderCustomGeometry" = Some (VBool false) /\
  after !! "/physics/disableContactProcessing" =
    (if disable_contact_processing c then Some (VBool true)
     else w_settings w !! "/physics/disableContactProcessing") /\
  (forall key, ~ In key construction_keys -> after !! key = w_settings w !! key).
Proof.
  intros Hstage c after. subst after.
  assert (exists w',
            state_of (__init__ default_cfg to_dict given w) = w' /\
            w_settings w' =
              <["/physics/collisionCylinderCustomGeometry" := VBool false]>
                (<["/physics/collisionConeCustomGeometry" := VBool false]>
                   ((if disable_contact_processing c
                     then <["/physics/disableContactProcessing" := VBool true]>
                     else fun m => m)
                      (<["/physics/physxDispatcher" := VBool true]>
                         (<["/persistent/omnihydra/useSceneGraphInstancing" := VBool true]>
                            (w_settings w)))))) as (w' & -> & Hw').
  { unfold __init__, flatten, float_of_Z, settings_get, set_bool.
    unfold_m. rewrite Hstage. fold c.
    destruct (disable_contact_processing c); simpl;
      repeat (step_if; simpl);
      try match goal with |- context [match ?p with PDict _ => _ | _ => _ end] =>
        destruct p; simpl end;
      eexists; split; reflexivity. }
  rewrite Hw'. clear Hw'.
  destruct (disable_contact_processing c); cbn beta iota;
    repeat split;
    try (intros key Hkey; unfold construction_keys in Hkey; simpl in Hkey;
         rewrite !lookup_insert_ne by (intros <-; tauto); reflexivity);
    repeat (first [ rewrite lookup_insert_eq; reflexivity
                  | rewrite lookup_insert_ne by discriminate ]);
    reflexivity.
Qed.

Lemma construction_writes_settings_witness :
  w_settings (state_of (__init__ example_cfg example_to_dict None viewportless_world))
    !! "/physics/physxDispatcher" = Some (VBool true).
Proof.
  apply (construction_writes_settings example_cfg example_to_dict None
           viewportless_world "/World" eq_refl).
Defined.



(** ** The parameter dictionary *)

Lemma dict_get_set k k' v d :
  dict_get k (dict_set k' v d) = if String.eqb k k' then Some v else dict_get k d.
Proof.
  induction d as [|[k0 v0] d IH]; simpl.
  - destruct (String.eqb_spec k k'); reflexivity.
  - destruct (String.eqb_spec k' k0) as [->|Hne]; simpl.
    + destruct (String.eqb_spec k k0); reflexivity.
    + rewrite IH. destruct (String.eqb_spec k k0) as [->|]; [|reflexivity].
      destruct (String.eqb_spec k0 k'); congruence.
Qed.

Lemma dict_get_absent k d : k ∉ map fst d -> dict_get k d = None.
Proof.
  induction d as [|[k0 v0] d IH]; simpl; [reflexivity|]. intros Hk.
  apply not_elem_of_cons in Hk as [Hne Hk].
  destruct (String.eqb_spec k k0) as [->|]; [contradiction|]. apply IH, Hk.
Qed.

Lemma dict_get_remove k k' d :
  NoDup (map fst d) ->
  dict_get k (dict_remove k' d) = if String.eqb k k' then None else dict_get k d.
Proof.
  induction d as [|[k0 v0] d IH]; simpl; intros Hd.
  - destruct (String.eqb k k'); reflexivity.
  - inversion Hd as [|? ? Hk0 Hd']; subst.
    destruct (String.eqb_spec k' k0) as [->|Hne]; simpl.
    + destruct (String.eqb_spec k k0) as [->|]; [|reflexivity].
      now apply dict_get_absent.
    + rewrite IH by assumption.
      destruct (String.eqb_spec k k0) as [->|]; [|reflexivity].
      destruct (String.eqb_spec k0 k'); congruence.
Qed.

Lemma dict_get_update k other : forall d,
  NoDup (map fst other) ->
  dict_get k (dict_update d other) =
    match dict_get k other with Some v => Some v | None => dict_get k d end.
Proof.
  unfold dict_update.
  induction other as [|[k0 v0] other IH]; simpl; intros d Hother; [reflexivity|].
  inversion Hother as [|? ? Hk0 Hother']; subst.
  rewrite IH by assumption. rewrite dict_get_set.
  destruct (String.eqb_spec k k0) as [->|]; [|reflexivity].
  now rewrite dict_get_absent.
Qed.

(** X13. The parameters handed to the base constructor: the entries of
    the [physx] sub-dictionary are lifted to the top level, where they
    override entries of the same name; the [physx] entry itself is gone
    (unless the sub-dictionary has an entry of that name); every other
    entry keeps its value. *)
Theorem flatten_lookup (d other : Dict) (w : World) (key : string) :
  NoDup (map fst d) ->
  NoDup (map fst other) ->
  dict_get "physx" d = Some (PDict other) ->
  exists d',
    flatten (Some d) w = Ok (Some d') w /\
    dict_get key d' =
      match dict_get key other with
      | Some v => Some v
      | None => if String.eqb key "physx" then None else dict_get key d
      end.
Proof.
  intros Hd Hother Hphysx. unfold flatten. rewrite Hphysx.
  eexists. split; [reflexivity|].
  rewrite dict_get_update by assumption.
  now rewrite dict_get_remove by assumption.
Qed.

Lemma flatten_lookup_witness :
  exists d',
    flatten (example_to_dict example_cfg) (example_world true (paused_until 0))
      = Ok (Some d') (example_world true (paused_until 0)) /\
    dict_get "enable_ccd" d' = Some (PLeaf (VBool false)).
Proof.
  apply (flatten_lookup
           [("dt", PFloat (dt example_cfg));
            ("device", PLeaf (VStr (device example_cfg)));
            ("physx", PDict [("enable_ccd", PLeaf (VBool false))])]
           [("enable_ccd", PLeaf (VBool false))]
           (example_world true (paused_until 0)) "enable_ccd").
  - simpl. repeat (constructor;
      [rewrite ?not_elem_of_cons; repeat split; try discriminate; apply not_elem_of_nil|]).
    constructor.
  - simpl. repeat (constructor;
      [rewrite ?not_elem_of_cons; repeat split; try discriminate; apply not_elem_of_nil|]).
    constructor.
  - reflexivity.
Defined.

(** ** More on reset *)

(** X14. The asynchronous reset does not register the shutdown callback:
    with the shutdown-on-stop flag set and the callback not yet in the
    table, [reset(soft)] returns with the callback registered, while
    [reset_async(soft)] returns with the table as it was and no
    registration in its trace. *)
Theorem reset_async_does_not_register (soft : bool) (s : St) :
  shutdown_app_on_stop (cfg (self s)) = true ->
  shutdown_registered s = false ->
  (exists s1, reset soft s = Ok tt s1 /\ shutdown_registered s1 = true) /\
  (exists s2 t,
     reset_async soft s = Ok tt s2 /\
     w_timeline_callbacks (world s2) = w_timeline_callbacks (world s) /\
     trace s2 = trace s ++ t /\
     registrations t = 0%nat).
Proof.
  intros F Hreg. split.
  - destruct (reset_once soft s) as (s1 & H1 & _ & _ & Hr).
    exists s1. split; [exact H1|]. now rewrite Hr, F.
  - unfold reset_async. unfold_m.
    destruct soft; simpl; eexists _, _; (split; [reflexivity|]); simpl;
      (split; [reflexivity|]); unfold trace; simpl;
      rewrite <- ?app_assoc; split; reflexivity.
Qed.

Lemma reset_async_does_not_register_witness :
  shutdown_registered (state_of (reset false gui_session)) = true /\
  shutdown_registered (state_of (reset_async false gui_session)) = false.
Proof.
  destruct (reset_async_does_not_register false gui_session eq_refl eq_refl)
    as [(s1 & H1 & R1) (s2 & t & H2 & T2 & _)].
  rewrite H1, H2. simpl. split; [exact R1|].
  unfold shutdown_registered. rewrite T2. reflexivity.
Defined.

(** X15. Any sequence of resets delegates, call by call, a forced load of
    the physics from USD followed by the base reset when the reset is not
    soft, and the base reset alone when it is; with the shutdown-on-stop
    flag off nothing else is delegated and the table of callbacks is not
    touched. *)
Theorem resets_force_load_when_hard (softs : list bool) (s : St) :
  exists s' t,
    resets softs s = Ok tt s' /\
    self s' = self s /\
    trace s' = trace s ++ t /\
    without_registrations t = concat (map reset_prefix softs) /\
    (shutdown_app_on_stop (cfg (self s)) = false ->
     t = concat (map reset_prefix softs) /\
     w_timeline_callbacks (world s') = w_timeline_callbacks (world s)).
Proof.
  revert s. induction softs as [|soft softs IH]; intros s.
  - exists s, []. simpl. rewrite app_nil_r. repeat split.
  - assert (exists s1 t1,
              reset soft s = Ok tt s1 /\ self s1 = self s /\
              trace s1 = trace s ++ reset_prefix soft ++ t1 /\
              without_registrations t1 = [] /\
              (shutdown_app_on_stop (cfg (self s)) = false ->
               t1 = [] /\
               w_timeline_callbacks (world s1) = w_timeline_callbacks (world s)))
      as (s1 & t1 & H1 & Hself & Htr & Hw & Hoff).
    { unfold reset, add_timeline_callback, timeline_callback_exists, reset_prefix, trace.
      unfold_m.
      destruct (shutdown_app_on_stop (cfg (self s))) eqn:F;
        [destruct (bool_decide ("shutdown_app_on_stop" ∈ w_timeline_callbacks (world s))) eqn:D|];
        destruct soft; simpl; rewrite ?F; simpl; rewrite ?D; simpl;
        eexists _, _; (split; [reflexivity|]); simpl;
        rewrite <- ?app_assoc; simpl;
        (split; [reflexivity|]);
        (split; [try (rewrite app_nil_r); reflexivity|]);
        (split; [reflexivity|]); intros; (discriminate || (split; reflexivity)). }
    destruct (IH s1) as (s' & t & H & Hself' & Htr' & Hw' & Hoff').
    exists s', (reset_prefix soft ++ t1 ++ t). repeat split.
    + simpl. unfold bind. rewrite H1. exact H.
    + congruence.
    + rewrite Htr', Htr, <- !app_assoc. reflexivity.
    + unfold without_registrations in *. rewrite !filter_app, Hw, Hw'.
      simpl. f_equal. destruct soft; reflexivity.
    + destruct (Hoff H0) as [-> _]. rewrite Hself in Hoff'.
      destruct (Hoff' H0) as [-> _]. reflexivity.
    + destruct (Hoff H0) as [_ E1]. rewrite Hself in Hoff'.
      destruct (Hoff' H0) as [_ E2]. congruence.
Qed.

Lemma resets_force_load_when_hard_witness :
  exists s',
    resets [false; true] quiet_session = Ok tt s' /\
    trace s' = trace quiet_session ++
      [ForceLoadPhysicsFromUsd; BaseReset false; BaseReset true].
Proof.
  destruct (resets_force_load_when_hard [false; true] quiet_session)
    as (s' & t & H & _ & Htr & _ & Hoff).
  exists s'. split; [exact H|].
  destruct (Hoff eq_refl) as [-> _]. exact Htr.
Defined.

(** ** More on stepping *)

(** While the timeline plays, [step] is the base class's step: one
    query of the timeline, then the physics step, with no render by the
    adapter and no [app.update()]. *)
Theorem step_when_playing (render_ : bool) (fuel : nat) (s : St) :
  timeline_now (world s) = PLAYING ->
  step render_ fuel s = Ok tt (on_world (log (BaseStep render_)) (on_world tick s)).
Proof.
  intros Hnow. unfold step. unfold bind at 1. rewrite is_playing_eq, Hnow.
  reflexivity.
Qed.

Lemma step_when_playing_witness :
  trace (state_of (step true 0 gui_session)) = trace gui_session ++ [BaseStep true].
Proof.
  rewrite (step_when_playing true 0 gui_session) by reflexivity. reflexivity.
Defined.

(** X16. On a stopped timeline [step] does not wait: it renders once,
    finds the timeline stopped, leaves the loop, and then still calls
    [app.update()] and the physics step of the base class. *)
Theorem step_when_stopped (render_ : bool) (fuel : nat) (s : St) :
  throttle_ok (self s) = true ->
  (forall k, (clock s <= k)%nat -> timeline_at s k = STOPPED) ->
  exists s1 s' t,
    render VNone (on_world tick (on_world tick s)) = Ok tt s1 /\
    trace s1 = trace s ++ t /\
    step render_ (S fuel) s = Ok tt s' /\
    self s' = self s1 /\
    trace s' = trace s ++ t ++ [AppUpdate; BaseStep render_].
Proof.
  intros Hok Hstop.
  assert (timeline_now (world s) = STOPPED) as H0
    by (apply (Hstop (clock s)); unfold clock; lia).
  unfold step. unfold bind at 1. rewrite is_playing_eq, H0. cbn [negb when].
  unfold bind at 1. unfold bind at 1. cbn [poll]. unfold bind at 1.
  rewrite is_playing_eq.
  assert (timeline_now (world (on_world tick s)) = STOPPED) as ->
    by (apply (Hstop (S (clock s))); unfold clock; lia).
  unfold bind at 1.
  pose proof (render_after VNone (on_world tick (on_world tick s))) as (Ht1 & Hc1 & t & Htr & _).
  pose proof (render_returns (on_world tick (on_world tick s)) Hok) as Hret.
  destruct (render VNone (on_world tick (on_world tick s))) as [[] s1|e s1|s1];
    try discriminate Hret.
  simpl in Ht1, Hc1, Htr. unfold bind at 1. rewrite is_stopped_eq.
  assert (timeline_now (world s1) = STOPPED) as ->.
  { unfold timeline_now. rewrite Ht1. apply (Hstop (w_clock (world s1))).
    unfold clock. lia. }
  simpl. exists s1. eexists. exists t. repeat split; try assumption.
  unfold trace in *. simpl. rewrite Htr, <- !app_assoc. reflexivity.
Qed.

Lemma step_when_stopped_witness :
  exists s1 s' t,
    render VNone (on_world tick (on_world tick stopped_session)) = Ok tt s1 /\
    trace s1 = trace stopped_session ++ t /\
    step true 1 stopped_session = Ok tt s' /\
    self s' = self s1 /\
    trace s' = trace stopped_session ++ t ++ [AppUpdate; BaseStep true].
Proof.
  apply (step_when_stopped true 0 stopped_session);
    [reflexivity | intros k _; reflexivity].
Defined.

Lemma only_counter_differs_about_self o0 : about_self (only_counter_differs o0).
Proof. intros s s' E [c Hc]. exists c. now rewrite <- E. Qed.

Lemma preserves_only_counter_render o0 :
  preserves (only_counter_differs o0) (render VNone).
Proof.
  unfold render, read_render_throttle_counter, read_render_throttle_period,
    assign_render_throttle_counter, py_mod.
  pose proof (only_counter_differs_about_self o0).
  cbn [negb when].
  preserves_tac; apply preserves_on_self; intros s [c Hc]; eexists; simpl;
    rewrite Hc; reflexivity.
Qed.

Lemma preserves_only_counter_poll o0 fuel :
  preserves (only_counter_differs o0) (poll fuel).
Proof.
  pose proof (only_counter_differs_about_self o0) as HI.
  pose proof (preserves_is_playing _ HI). pose proof (preserves_is_stopped _ HI).
  pose proof (preserves_only_counter_render o0).
  induction fuel as [|fuel IH]; simpl.
  - intros s Hs. exact Hs.
  - preserves_tac.
Qed.

(** X17. [step] changes nothing of the adapter but the throttle counter:
    however long it polls and however it ends, the render mode, the
    viewport and window flags, the data bridge and the configuration are
    afterwards what they were before. *)
Theorem step_changes_only_throttle_counter (render_ : bool) (fuel : nat) (s : St) :
  exists c,
    self (state_of (step render_ fuel s)) = with_render_throttle_counter c (self s).
Proof.
  assert (preserves (only_counter_differs (self s)) (step render_ fuel)) as Hp.
  { pose proof (only_counter_differs_about_self (self s)) as HI.
    pose proof (preserves_is_playing _ HI).
    pose proof (preserves_only_counter_poll (self s) fuel).
    unfold step. preserves_tac. }
  apply (Hp s). exists (_render_throttle_counter (self s)).
  destruct s as [[] ?]; reflexivity.
Qed.

Lemma step_returns_once_playing_witness :
  returns (step true (S (9 - clock paused_session)) paused_session) = true.
Proof.
  apply (step_returns_once_playing true paused_session 9).
  - reflexivity.
  - intros k Hk. unfold timeline_at.
    assert (w_timeline (world paused_session) = paused_until 9) as ->
      by (vm_compute; reflexivity).
    unfold paused_until. destruct (Nat.ltb_spec k 9); [lia|reflexivity].
Defined.

(** ** Solver parameters and the data bridge *)

(** With the scene API in place, the call is decided by the version. *)
Lemma set_additional_physx_params_eq s :
  w_physx_scene_api (world s) = true ->
  _set_additional_physx_params s =
  match get_version s with
  | Ok (major, _, _) _ =>
      Ok tt (on_world (log_all (scene_attributes (cfg (self s))
                                ++ iteration_attributes (cfg (self s)) major
                                ++ default_material (cfg (self s)))) s)
  | Raise e _ => Raise e (on_world (log_all (scene_attributes (cfg (self s)))) s)
  | Blocked _ => Blocked (on_world (log_all (scene_attributes (cfg (self s)))) s)
  end.
Proof.
  intros Hapi. unfold _set_additional_physx_params, scene_attributes,
    iteration_attributes, default_material.
  unfold_m. rewrite Hapi. cbn [negb].
  destruct (gravity_decomposition (gravity (cfg (self s)))) as [[[d0 d1] d2] m].
  match goal with |- context [get_version ?s2] =>
    rewrite (get_version_self s s2) by reflexivity end.
  destruct (get_version s) as [[[major minor] patch] ?|e ?|?]; try reflexivity.
  simpl. destruct (major =? 2022); reflexivity.
Qed.

(** X19. Without the physics scene API nothing is configured:
    [_set_additional_physx_params] raises [RuntimeError] with the state as
    it was, and [_init_stage] raises it right after the base class's stage
    initialisation, without loading the data bridge. *)
Theorem init_stage_needs_scene_api (s : St) :
  w_physx_scene_api (world s) = false ->
  _set_additional_physx_params s =
    Raise (RuntimeError "Physics scene API is None! Please create the scene first.") s /\
  _init_stage s =
    Raise (RuntimeError "Physics scene API is None! Please create the scene first.")
      (on_world (log BaseInitStage) s).
Proof.
  intros Hapi. unfold _init_stage, _set_additional_physx_params. unfold_m.
  simpl. rewrite Hapi. split; reflexivity.
Qed.

Lemma init_stage_needs_scene_api_witness :
  _init_stage sceneless_session =
    Raise (RuntimeError "Physics scene API is None! Please create the scene first.")
      (on_world (log BaseInitStage) sceneless_session).
Proof. apply (init_stage_needs_scene_api sceneless_session). reflexivity. Defined.

(** X20. [_set_additional_physx_params] is not atomic: when the version
    cannot be read, the error of [get_version] comes out after collision
    detection, the collision stack and gravity were already written to the
    scene; no iteration count is written and no material is created. *)
Theorem physx_params_partial_on_unreadable_version (s : St) (e : Exn) :
  w_physx_scene_api (world s) = true ->
  get_version s = Raise e s ->
  exists s',
    _set_additional_physx_params s = Raise e s' /\
    self s' = self s /\
    trace s' = trace s ++ scene_attributes (cfg (self s)).
Proof.
  intros Hapi Hv. rewrite set_additional_physx_params_eq, Hv by assumption.
  eexists. split; [reflexivity|]. split; [reflexivity|]. apply trace_log_all.
Qed.

Lemma physx_params_partial_on_unreadable_version_witness :
  exists s',
    _set_additional_physx_params odd_version_session =
      Raise (ValueError "invalid literal for int() with base 10") s' /\
    trace s' = trace odd_version_session ++
      [EnableCcd false; CreateGpuCollisionStackSizeAttr 67108864;
       CreateGravityDirectionAttr 0 0 (-1);
       CreateGravityMagnitudeAttr 0x1.39eb851eb851fp+3].
Proof.
  destruct (physx_params_partial_on_unreadable_version odd_version_session
              (ValueError "invalid literal for int() with base 10"))
    as (s' & H & _ & Htr); try (vm_compute; reflexivity).
  exists s'. split; [exact H|]. rewrite Htr. vm_compute; reflexivity.
Defined.

(** X21. With the scene API in place and a readable version, the call
    returns after writing, in this order, the scene attributes, the
    iteration counts and the default material, which is created at
    [<physics_prim_path>/defaultMaterial] and then bound to the physics
    scene.  For the 2022 release only the position counts are written, to
    the two legacy attributes, and the velocity counts of the configuration
    are not used; otherwise the four split attributes are written. *)
Theorem physx_params_by_version (s : St) (major minor patch : Z) :
  w_physx_scene_api (world s) = true ->
  get_version s = Ok (major, minor, patch) s ->
  exists s',
    _set_additional_physx_params s = Ok tt s' /\
    self s' = self s /\
    trace s' = trace s ++ scene_attributes (cfg (self s))
                       ++ iteration_attributes (cfg (self s)) major
                       ++ default_material (cfg (self s)) /\
    (major = 2022 ->
     forallb (fun ev => negb (is_velocity_attribute ev))
       (scene_attributes (cfg (self s))
        ++ iteration_attributes (cfg (self s)) major
        ++ default_material (cfg (self s))) = true).
Proof.
  intros Hapi Hv. rewrite set_additional_physx_params_eq, Hv by assumption.
  eexists. split; [reflexivity|]. split; [reflexivity|].
  split; [apply trace_log_all|].
  intros ->. unfold scene_attributes.
  destruct (gravity_decomposition (gravity (cfg (self s)))) as [[[d0 d1] d2] m].
  reflexivity.
Qed.

Lemma physx_params_by_version_witness :
  exists s',
    _set_additional_physx_params legacy_session = Ok tt s' /\
    trace s' = trace legacy_session ++
      [EnableCcd false; CreateGpuCollisionStackSizeAttr 67108864;
       CreateGravityDirectionAttr 0 0 (-1);
       CreateGravityMagnitudeAttr 0x1.39eb851eb851fp+3;
       CreateMinIterationCountAttr 1; CreateMaxIterationCountAttr 255;
       SpawnPhysicsMaterial "/physicsScene/defaultMaterial" "RigidBodyMaterialCfg";
       BindPhysicsMaterial "/physicsScene" "/physicsScene/defaultMaterial"].
Proof.
  destruct (physx_params_by_version legacy_session 2022 2 1)
    as (s' & H & _ & Htr & _); try (vm_compute; reflexivity).
  exists s'. split; [exact H|]. rewrite Htr. vm_compute; reflexivity.
Defined.

(** What [_load_fabric_interface] does, given the version. *)
Lemma load_fabric_interface_eq s :
  _load_fabric_interface s =
  match get_version s with
  | Ok (major, _, _) _ =>
      Ok tt (on_self (with_fabric_iface (chosen_fabric_iface (self s) major)) s)
  | Raise e _ => Raise e s
  | Blocked _ => Blocked s
  end.
Proof.
  unfold _load_fabric_interface, chosen_fabric_iface. unfold_m.
  pose proof (get_version_self s s eq_refl) as Hs.
  destruct (get_version s) as [[[major minor] patch] s1|e s1|s1];
    inversion Hs; subst; try reflexivity.
  simpl.
  destruct (major =? 2022);
    [destruct (use_flatcache (cfg (self s)))|destruct (use_fabric (cfg (self s)))];
    simpl; try reflexivity; destruct s as [[] ?]; reflexivity.
Qed.

(** X22. [_load_fabric_interface] picks the bridge by release: the
    flatcache interface for 2022 when [use_flatcache] is set, the fabric
    interface for any other release when [use_fabric] is set; it never
    unloads a bridge, touches nothing else, and when the version cannot be
    read it raises with the state as it was. *)
Theorem load_fabric_interface_by_version (s : St) :
  (forall major minor patch,
     get_version s = Ok (major, minor, patch) s ->
     exists s',
       _load_fabric_interface s = Ok tt s' /\
       _fabric_iface (self s') =
         (if major =? 2022
          then if use_flatcache (cfg (self s)) then Some PhysxFlatcache
               else _fabric_iface (self s)
          else if use_fabric (cfg (self s)) then Some PhysxFabric
               else _fabric_iface (self s)) /\
       render_mode (self s') = render_mode (self s) /\
       world s' = world s) /\
  (forall e, get_version s = Raise e s -> _load_fabric_interface s = Raise e s).
Proof.
  split.
  - intros major minor patch Hv. rewrite load_fabric_interface_eq, Hv.
    eexists. repeat split.
  - intros e Hv. now rewrite load_fabric_interface_eq, Hv.
Qed.

Lemma load_fabric_interface_by_version_witness :
  exists s',
    _load_fabric_interface legacy_session = Ok tt s' /\
    _fabric_iface (self s') = Some PhysxFlatcache.
Proof.
  destruct (load_fabric_interface_by_version legacy_session) as [H _].
  destruct (H 2022 2 1) as (s' & H1 & H2 & _); [vm_compute; reflexivity|].
  exists s'. split; [exact H1|exact H2].
Defined.

(** X23. After a stage initialisation that succeeded, rendering goes
    through the bridge that was chosen: outside NO_RENDERING, [_init_stage]
    followed by [render()] ends with the flush of that bridge, if any, and
    one base render. *)
Theorem render_after_init_stage (s : St) (major minor patch : Z) :
  w_physx_scene_api (world s) = true ->
  get_version s = Ok (major, minor, patch) s ->
  render_mode (self s) <> NO_RENDERING ->
  exists s' before,
    (_init_stage ;; render VNone) s = Ok tt s' /\
    _fabric_iface (self s') = chosen_fabric_iface (self s) major /\
    trace s' = trace s ++ before
      ++ match chosen_fabric_iface (self s) major with
         | Some iface => [FabricUpdate iface 0 0]
         | None => []
         end
      ++ [BaseRender].
Proof.
  intros Hapi Hv Hm.
  set (s0 := on_world (log BaseInitStage) s).
  set (attrs := scene_attributes (cfg (self s))
                ++ iteration_attributes (cfg (self s)) major
                ++ default_material (cfg (self s))).
  set (s1 := on_world (log_all attrs) s0).
  set (s2 := on_self (with_fabric_iface (chosen_fabric_iface (self s) major)) s1).
  assert (_set_additional_physx_params s0 = Ok tt s1) as H1.
  { rewrite set_additional_physx_params_eq by exact Hapi.
    rewrite (get_version_self s s0), Hv by reflexivity. reflexivity. }
  assert (_load_fabric_interface s1 = Ok tt s2) as H2.
  { rewrite load_fabric_interface_eq.
    rewrite (get_version_self s s1), Hv by reflexivity. reflexivity. }
  assert (_init_stage s = Ok tt s2) as H3.
  { unfold _init_stage. unfold bind at 1. unfold emit, modify. fold s0.
    unfold bind at 1. rewrite H1. exact H2. }
  exists (on_world (log_all (fabric_flush (self s2) ++ [BaseRender])) s2),
         (BaseInitStage :: attrs).
  split; [|split].
  - unfold bind. rewrite H3. apply render_outside_no_rendering. exact Hm.
  - reflexivity.
  - rewrite trace_log_all. unfold s2, s1, s0, trace, fabric_flush. simpl.
    pose proof (trace_log_all attrs (on_world (log BaseInitStage) s)) as E.
    unfold trace in E. simpl in E. rewrite E. simpl.
    rewrite <- !app_assoc. reflexivity.
Qed.

Lemma render_after_init_stage_witness :
  exists s' before,
    (_init_stage ;; render VNone) legacy_session = Ok tt s' /\
    trace s' = trace legacy_session ++ before
      ++ [FabricUpdate PhysxFlatcache 0 0] ++ [BaseRender].
Proof.
  destruct (render_after_init_stage legacy_session 2022 2 1)
    as (s' & before & H & _ & Htr); try (vm_compute; reflexivity); try discriminate.
  exists s', before. split; [exact H|exact Htr].
Defined.

(** ** The shutdown callback *)

(** The part of the callback inside [try], as a function of the
    replicator: it returns, with the calls it made recorded. *)
Lemma replicator_block_returns (r : Replicator) (p : Process) :
  exists calls,
    try_except_pass
      (may_raise RepImport (rep_import r) ;;
       rep_status <-
         (called RepGetStatus ;;
          match rep_get_status r with
          | inl status => ret status
          | inr exn => raise exn
          end) ;;
       when (negb (is_stopped_or_stopping rep_status))
         (may_raise RepStop (rep_stop r)) ;;
       may_raise RepWaitUntilComplete (rep_wait_until_complete r)) p
    = Ok tt {| p_st := p_st p;
               p_launched_from_terminal := p_launched_from_terminal p;
               p_replicator := p_replicator p;
               p_can_close_stage := p_can_close_stage p;
               p_calls := p_calls p ++ calls |} /\
    forallb is_replicator_call calls = true /\
    (In RepStop calls <->
     rep_import r = None /\
     exists status, rep_get_status r = inl status /\
                    is_stopped_or_stopping status = false) /\
    (In RepWaitUntilComplete calls <->
     rep_import r = None /\
     exists status, rep_get_status r = inl status /\
                    (is_stopped_or_stopping status = true \/ rep_stop r = None)).
Proof.
  unfold try_except_pass, may_raise, called. unfold_m.
  destruct r as [[e1|] [status|e2] [e3|] [e4|]]; simpl;
    try destruct (is_stopped_or_stopping status) eqn:Hs; simpl;
    eexists; (split; [rewrite <- ?app_assoc; reflexivity|]);
    (split; [reflexivity|]); simpl;
    (split; split;
     try (intros [H|H]; try discriminate H; repeat destruct H as [H|H]; try discriminate H;
          try contradiction);
     try (intros H; exfalso; repeat destruct H as [H|H]; try discriminate H; exact H);
     try (intros (H & st & H1 & H2); try discriminate H; try discriminate H1;
          inversion H1; subst; try congruence;
          try (destruct H2 as [H2|H2]; congruence));
     try (split; [reflexivity|]; eexists; split; [reflexivity|]; auto);
     auto 6).
Qed.

(** X24. On a STOP event the shutdown always goes through: whatever the
    replicator does (missing module, failing status query, failing stop or
    wait), the callback returns after the calls to the replicator, if any,
    followed by the fixed sequence: clear all callbacks, close the stage if
    it can be closed, log, shut the application down, unload the plugins.
    The replicator is not touched when the simulator was launched from a
    terminal; it is asked to stop exactly when its status could be read and
    is neither STOPPED nor STOPPING.  Afterwards the table of timeline
    callbacks is empty and the adapter object is as before. *)
Theorem shutdown_proceeds_whatever_replicator_does (STOP : Z) (p : Process) :
  exists p' replicator_calls,
    _shutdown_app_on_stop_callback STOP STOP p = Ok tt p' /\
    p_calls p' = p_calls p ++ replicator_calls
                 ++ shutdown_sequence (p_can_close_stage p) /\
    forallb is_replicator_call replicator_calls = true /\
    (p_launched_from_terminal p = true -> replicator_calls = []) /\
    (In RepStop replicator_calls <->
     p_launched_from_terminal p = false /\
     rep_import (p_replicator p) = None /\
     exists status, rep_get_status (p_replicator p) = inl status /\
                    is_stopped_or_stopping status = false) /\
    w_timeline_callbacks (world (p_st p')) = ∅ /\
    self (p_st p') = self (p_st p) /\
    trace (p_st p') = trace (p_st p).
Proof.
  unfold _shutdown_app_on_stop_callback. rewrite Z.eqb_refl. cbn [when].
  unfold bind at 1. unfold get at 1. unfold bind at 1.
  destruct (p_launched_from_terminal p) eqn:Hterm; cbn [negb when].
  - exists {| p_st := on_world (with_callbacks (fun _ => ∅)) (p_st p);
              p_launched_from_terminal := p_launched_from_terminal p;
              p_replicator := p_replicator p;
              p_can_close_stage := p_can_close_stage p;
              p_calls := p_calls p ++ shutdown_sequence (p_can_close_stage p) |}, [].
    unfold clear_all_callbacks, called, shutdown_sequence. unfold_m. simpl.
    destruct (p_can_close_stage p); simpl; rewrite <- ?app_assoc; simpl;
      repeat split; try reflexivity; try tauto; try discriminate; intros []; discriminate.
  - destruct (replicator_block_returns (p_replicator p) p)
      as (calls & Hblock & Hrep & Hstop & _).
    rewrite Hblock.
    exists {| p_st := on_world (with_callbacks (fun _ => ∅)) (p_st p);
              p_launched_from_terminal := p_launched_from_terminal p;
              p_replicator := p_replicator p;
              p_can_close_stage := p_can_close_stage p;
              p_calls := p_calls p ++ calls ++ shutdown_sequence (p_can_close_stage p) |},
           calls.
    unfold clear_all_callbacks, called, shutdown_sequence. unfold_m. simpl.
    split.
    { destruct (p_can_close_stage p); simpl; rewrite <- ?app_assoc; simpl; reflexivity. }
    split; [reflexivity|]. split; [exact Hrep|].
    split; [discriminate|].
    split; [|repeat split].
    rewrite Hstop. split; [intros H; split; [reflexivity|exact H]|intros [_ H]; exact H].
Qed.

Lemma shutdown_proceeds_whatever_replicator_does_witness :
  exists p' replicator_calls,
    _shutdown_app_on_stop_callback 2 2 example_process = Ok tt p' /\
    p_calls p' = replicator_calls ++ shutdown_sequence true /\
    In RepStop replicator_calls /\
    w_timeline_callbacks (world (p_st p')) = ∅.
Proof.
  destruct (shutdown_proceeds_whatever_replicator_does 2 example_process)
    as (p' & calls & H & Hcalls & _ & _ & Hstop & Htable & _).
  exists p', calls. repeat split; try assumption.
  apply Hstop. repeat split. exists STARTED. split; reflexivity.
Defined.

(** Any other timeline event is ignored: for an event whose type is
    not STOP the callback returns at once, nothing is called, and the
    process, the registered callbacks included, is as before. *)
Theorem shutdown_callback_ignores_other_events (STOP event_type : Z) (p : Process) :
  event_type <> STOP ->
  _shutdown_app_on_stop_callback STOP event_type p = Ok tt p.
Proof.
  intros Hne. unfold _shutdown_app_on_stop_callback.
  destruct (Z.eqb_spec event_type STOP); [contradiction|reflexivity].
Qed.

Lemma shutdown_callback_ignores_other_events_witness :
  _shutdown_app_on_stop_callback 2 0 example_process = Ok tt example_process.
Proof.
  apply (shutdown_callback_ignores_other_events 2 0 example_process). discriminate.
Defined.
